(** * Cell Image Analyzer: settings store, navigation button, file import tab

    A shallow embedding of [src/utils/settings.py],
    [src/gui/components/nav_button.py] and
    [src/gui/workspaces/input_tabs/file_import_tab.py], and the properties
    the specification states about them.

    Part I holds the embedding, one module per source file (and one for
    the slice of the Python runtime the code relies on). Part II holds the
    proofs. *)

From Stdlib Require Import Ascii.
From Stdlib Require OrderedTypeEx.
From stdpp Require Import gmap strings list pretty sorting.

Local Set Warnings "-register-all".

(* ================================================================== *)
(** * Part I. The embedding                                            *)
(* ================================================================== *)

(** ** The Python runtime the code relies on *)

Module Py.

(** A Python [str] is kept as the byte string of its UTF-8 encoding. The
    operations used below (concatenation, search for ['/'] and ['.'],
    comparison) agree on code points and on their UTF-8 bytes. *)

(** What [json.load] can produce, which is also what [json.dump] accepts.
    Numbers are kept in their integer case: the program stores strings only. *)
Inductive value : Type :=
  | VNone
  | VBool (b : bool)
  | VInt (n : Z)
  | VStr (s : string)
  | VList (l : list value)
  | VDict (d : gmap string value).

(** [bool(v)]: the truth value the [and] / [if] of Python test. *)
Definition truthy (v : value) : bool :=
  match v with
  | VNone => false
  | VBool b => b
  | VInt n => negb (n =? 0)%Z
  | VStr s => negb (String.eqb s "")
  | VList l => match l with [] => false | _ => true end
  | VDict d => negb (bool_decide (d = ∅))
  end.

(** The exception classes that can reach the code, with the part of the
    class hierarchy its [except] clauses look at: [IOError] is an alias of
    [OSError]; [PermissionError] and [FileNotFoundError] derive from it;
    [JSONDecodeError] and [UnicodeDecodeError] derive from [ValueError]. *)
Inductive exn_class : Type :=
  | OSError
  | PermissionError
  | FileNotFoundError
  | JSONDecodeError
  | UnicodeDecodeError
  | TypeError
  | AttributeError.

Record exn : Type := Exn { exn_cls : exn_class; exn_msg : string }.

Definition isinstance_IOError (e : exn) : bool :=
  match exn_cls e with
  | OSError | PermissionError | FileNotFoundError => true
  | _ => false
  end.

Definition isinstance_PermissionError (e : exn) : bool :=
  match exn_cls e with PermissionError => true | _ => false end.

Definition isinstance_JSONDecodeError (e : exn) : bool :=
  match exn_cls e with JSONDecodeError => true | _ => false end.

(** The outcome of a call: it returns, or an exception leaves it. *)
Inductive result (A : Type) : Type :=
  | Normal (a : A)
  | Raise (e : exn).
Arguments Normal {A} a.
Arguments Raise {A} e.

(** Code that reads and writes a state [St] and may raise. What was written
    before an exception stays written. *)
Definition M (St A : Type) : Type := St → result A * St.

Definition ret {St A} (a : A) : M St A := λ s, (Normal a, s).

Definition bind {St A B} (c : M St A) (k : A → M St B) : M St B :=
  λ s, match c s with
       | (Normal a, s') => k a s'
       | (Raise e, s') => (Raise e, s')
       end.

Definition raise {St A} (e : exn) : M St A := λ s, (Raise e, s).

Definition lift {St A} (r : result A) : M St A := λ s, (r, s).

Definition get_state {St} : M St St := λ s, (Normal s, s).

Definition modify {St} (f : St → St) : M St unit := λ s, (Normal tt, f s).

(** [try: body  except <classes>: handler] *)
Definition try_except {St A} (body : M St A) (catches : exn → bool)
    (handler : exn → M St A) : M St A :=
  λ s, match body s with
       | (Normal a, s') => (Normal a, s')
       | (Raise e, s') => if catches e then handler e s' else (Raise e, s')
       end.

(** [for i in range(n): body(i)] *)
Fixpoint for_range_from {St} (i n : nat) (body : nat → M St unit) : M St unit :=
  match n with
  | O => ret tt
  | S n' => bind (body i) (λ _, for_range_from (S i) n' body)
  end.

Definition for_range {St} (n : nat) (body : nat → M St unit) : M St unit :=
  for_range_from 0 n body.

(** [for x in xs: body(x)] *)
Fixpoint for_each {St A} (xs : list A) (body : A → M St unit) : M St unit :=
  match xs with
  | [] => ret tt
  | x :: xs' => bind (body x) (λ _, for_each xs' body)
  end.

(** [acc = a; for i in range(n): acc = f(acc, i)] *)
Definition fold_range {A} (n : nat) (f : A → nat → A) (a : A) : A :=
  fold_left f (seq 0 n) a.

(** [out = []; for x in xs: if c(x): out.append(f(x))] *)
Definition collect {A B} (c : A → bool) (f : A → B) (xs : list A) : list B :=
  fold_left (λ out x, if c x then out ++ [f x] else out) xs [].

(** [l.sort(key=key)]: the sort of Python is stable and compares keys with
    [<] only. A stable sort has one possible result, and it is the one of
    this insertion sort: an element goes in front of the first one whose
    key is not smaller than its own. *)
Section Sort.
Context {A K : Type} (ltb : K → K → bool) (key : A → K).

Fixpoint sort_insert (x : A) (l : list A) : list A :=
  match l with
  | [] => [x]
  | y :: l' => if ltb (key y) (key x) then y :: sort_insert x l'
               else x :: y :: l'
  end.

Fixpoint list_sort (l : list A) : list A :=
  match l with
  | [] => []
  | x :: l' => sort_insert x (list_sort l')
  end.

(** [x] may stand before [y]: the key of [y] is not the smaller one. *)
Definition key_le (x y : A) : Prop := ltb (key y) (key x) = false.
End Sort.

(** [str.lower] is a parameter of what follows. On ASCII text it is this
    function, which the examples use. *)
Definition ascii_lower_char (c : ascii) : ascii :=
  let n := nat_of_ascii c in
  if (65 <=? n)%nat && (n <=? 90)%nat then ascii_of_nat (n + 32) else c.

Fixpoint ascii_lower (s : string) : string :=
  match s with
  | EmptyString => EmptyString
  | String c s' => String (ascii_lower_char c) (ascii_lower s')
  end.

End Py.

Declare Scope py_scope.
Delimit Scope py_scope with py.
Notation "x <- c ;; k" := (Py.bind c (λ x, k))
  (at level 100, c at next level, right associativity) : py_scope.
Notation "c ;; k" := (Py.bind c (λ _, k))
  (at level 100, right associativity) : py_scope.
Local Open Scope py_scope.

(** ** [os.path] on a POSIX system *)

Module posixpath.

Definition sep : ascii := "/"%char.
Definition extsep : ascii := "."%char.

Definition startswith (c : ascii) (s : string) : bool :=
  match s with
  | String a _ => Ascii.eqb a c
  | EmptyString => false
  end.

Fixpoint endswith (c : ascii) (s : string) : bool :=
  match s with
  | EmptyString => false
  | String a EmptyString => Ascii.eqb a c
  | String _ s' => endswith c s'
  end.

(** [os.path.isabs(p)] *)
Definition isabs (p : string) : bool := startswith sep p.

(** [os.path.join(a, b)] *)
Definition join (a b : string) : string :=
  if startswith sep b then b
  else if String.eqb a "" || endswith sep a then a +:+ b
  else a +:+ String sep b.

(** [p.rfind(c)], with the index of the first character of [p] given:
    the largest index that holds [c], or [-1]. *)
Fixpoint rfind_from (c : ascii) (p : string) (i : Z) : Z :=
  match p with
  | EmptyString => (-1)%Z
  | String a p' =>
      let later := rfind_from c p' (i + 1)%Z in
      if (0 <=? later)%Z then later
      else if Ascii.eqb a c then i else (-1)%Z
  end.

Definition rfind (c : ascii) (p : string) : Z := rfind_from c p 0%Z.

(** The loop of [genericpath._splitext] that skips the leading dots of the
    last component: [true] when a character other than a dot stands in
    [p[filenameIndex:dotIndex]]. *)
Fixpoint has_non_dot (p : string) (filenameIndex : nat) (steps : nat) : bool :=
  match steps with
  | O => false
  | S steps' =>
      match String.get filenameIndex p with
      | Some c => if Ascii.eqb c extsep
                  then has_non_dot p (S filenameIndex) steps'
                  else true
      | None => true
      end
  end.

(** [os.path.splitext(p)] *)
Definition splitext (p : string) : string * string :=
  let sepIndex := rfind sep p in
  let dotIndex := rfind extsep p in
  if (sepIndex <? dotIndex)%Z
     && has_non_dot p (Z.to_nat (sepIndex + 1)%Z)
                      (Z.to_nat (dotIndex - (sepIndex + 1))%Z)
  then (String.substring 0 (Z.to_nat dotIndex) p,
        String.substring (Z.to_nat dotIndex)
                         (String.length p - Z.to_nat dotIndex) p)
  else (p, "").

End posixpath.

(** ** The file system as the program sees it *)

Module os.
Import Py.

(** What the calls of [os] and [os.path] answer. [os.path.isdir] and
    [os.path.isfile] swallow every [OSError] and answer [False];
    [os.listdir] raises. An [int] given for a path names an open file
    descriptor, and what it is open on is left to [fd_isdir]. *)
Record filesystem : Type := {
  isdir : string → bool;
  isfile : string → bool;
  listdir : string → result (list string);
  fd_isdir : Z → result bool;
}.

(** [os.path.isdir(v)] for whatever [v] holds: [os.stat] takes a [str] or
    an [int], and raises [TypeError] on the rest. *)
Definition path_isdir (fs : filesystem) (v : value) : result bool :=
  match v with
  | VStr p => Normal (isdir fs p)
  | VInt n => fd_isdir fs n
  | VBool b => fd_isdir fs (if b then 1 else 0)%Z
  | _ => Raise (Exn TypeError
                  "stat: path should be string, bytes, os.PathLike or integer")
  end.

End os.

(** ** [src/utils/settings.py] *)

Module Settings.
Import Py.

(** The settings file on disk, by what [open] and [json.load] do with it.
    The file is a single JSON object (the code annotates what it loads as
    [dict[str, Any]]); a file that cannot be opened, decoded or parsed
    raises. *)
Inductive file_content : Type :=
  | Parses (d : gmap string value)
  | Fails (e : exn).

(** What an attempt to write meets, when it meets anything: [open(.., 'w')]
    raises and the file is untouched, or [json.dump] raises after the file
    was truncated. *)
Inductive write_fault : Type :=
  | OpenFails (e : exn)
  | DumpFails (e : exn).

Inductive io_event : Type :=
  | EvExists (path : string)
  | EvRead (path : string)
  | EvWrite (path : string) (d : gmap string value)
  | EvPrint (line : string).

(** An instance of [Settings]. An attribute that was never assigned is
    [None]: reading it raises [AttributeError]. *)
Record object : Type := {
  _initialized : bool;
  _settings_file : option string;
  _settings : option (gmap string value);
}.

(** The process and the disk around it. [_instance] is the class attribute
    [Settings._instance]; instances live in [heap] and are known by their
    index, so that two names of one instance are one index. *)
Record process : Type := {
  files : gmap string file_content;
  fault : option write_fault;
  io_log : list io_event;
  _instance : option nat;
  heap : list object;
}.

Definition set_files (f : gmap string file_content → gmap string file_content)
    (σ : process) : process :=
  {| files := f (files σ); fault := fault σ; io_log := io_log σ;
     _instance := _instance σ; heap := heap σ |}.

Definition set_io_log (f : list io_event → list io_event)
    (σ : process) : process :=
  {| files := files σ; fault := fault σ; io_log := f (io_log σ);
     _instance := _instance σ; heap := heap σ |}.

Definition set__instance (i : option nat) (σ : process) : process :=
  {| files := files σ; fault := fault σ; io_log := io_log σ;
     _instance := i; heap := heap σ |}.

Definition set_heap (f : list object → list object) (σ : process) : process :=
  {| files := files σ; fault := fault σ; io_log := io_log σ;
     _instance := _instance σ; heap := f (heap σ) |}.

Definition log (ev : io_event) : M process unit :=
  modify (set_io_log (λ l, l ++ [ev])).

(** *** Attribute access *)

Definition deref (self : nat) : M process object :=
  σ <- get_state ;;
  match heap σ !! self with
  | Some o => ret o
  | None => raise (Exn AttributeError "no such object")
  end.

Definition getattr {A} (field : object → option A) (name : string)
    (self : nat) : M process A :=
  o <- deref self ;;
  match field o with
  | Some a => ret a
  | None => raise (Exn AttributeError
                     ("'Settings' object has no attribute '" +:+ name +:+ "'"))
  end.

Definition setattr__initialized (self : nat) (b : bool) : M process unit :=
  modify (set_heap (alter (λ o,
    {| _initialized := b; _settings_file := _settings_file o;
       _settings := _settings o |}) self)).

Definition setattr__settings_file (self : nat) (p : string)
    : M process unit :=
  modify (set_heap (alter (λ o,
    {| _initialized := _initialized o; _settings_file := Some p;
       _settings := _settings o |}) self)).

Definition setattr__settings (self : nat) (d : gmap string value)
    : M process unit :=
  modify (set_heap (alter (λ o,
    {| _initialized := _initialized o; _settings_file := _settings_file o;
       _settings := Some d |}) self)).

(** *** The calls that leave the process *)

(** [Path.exists()] *)
Definition path_exists (path : string) : M process bool :=
  log (EvExists path) ;;
  σ <- get_state ;;
  ret (bool_decide (is_Some (files σ !! path))).

(** [with open(path, 'r', encoding='utf-8') as f: json.load(f)] *)
Definition json_load (path : string) : M process (gmap string value) :=
  log (EvRead path) ;;
  σ <- get_state ;;
  match files σ !! path with
  | Some (Parses d) => ret d
  | Some (Fails e) => raise e
  | None => raise (Exn FileNotFoundError "[Errno 2] No such file or directory")
  end.

(** [with open(path, 'w', encoding='utf-8') as f: json.dump(d, f, indent=2)].
    What a truncated file holds is not JSON any more. *)
Definition json_dump (path : string) (d : gmap string value)
    : M process unit :=
  log (EvWrite path d) ;;
  σ <- get_state ;;
  match fault σ with
  | None => modify (set_files (insert path (Parses d)))
  | Some (OpenFails e) => raise e
  | Some (DumpFails e) =>
      modify (set_files
                (insert path (Fails (Exn JSONDecodeError "Expecting value")))) ;;
      raise e
  end.

Definition print (line : string) : M process unit := log (EvPrint line).

(** *** The class *)

Section Class.
(** [Path(__file__).parent.parent.parent], as a string. *)
Variable project_root : string.

Definition _DEFAULT_SETTINGS_FILE : string := "app_settings.json".

Definition __new__ : M process nat :=
  σ <- get_state ;;
  match _instance σ with
  | None =>
      let self := length (heap σ) in
      modify (set_heap (λ h, h ++ [{| _initialized := false;
                                       _settings_file := None;
                                       _settings := None |}])) ;;
      modify (set__instance (Some self)) ;;
      setattr__initialized self false ;;
      ret self
  | Some self => ret self
  end.

Definition _get_settings_path (self : nat) : M process string :=
  ret (posixpath.join project_root _DEFAULT_SETTINGS_FILE).

Definition _load_settings (self : nat) : M process unit :=
  path <- getattr _settings_file "_settings_file" self ;;
  there <- path_exists path ;;
  if there : bool then
    try_except
      (d <- json_load path ;;
       setattr__settings self d)
      (λ e, isinstance_JSONDecodeError e || isinstance_IOError e)
      (λ _, setattr__settings self ∅)
  else
    setattr__settings self ∅.

Definition __init__ (self : nat) : M process unit :=
  o <- deref self ;;
  if _initialized o then ret tt
  else
    setattr__initialized self true ;;
    path <- _get_settings_path self ;;
    setattr__settings_file self path ;;
    setattr__settings self ∅ ;;
    _load_settings self.

(** The call [Settings()]: [__new__], then [__init__] on what it gave. *)
Definition Settings : M process nat :=
  self <- __new__ ;;
  __init__ self ;;
  ret self.

Definition _save_settings (self : nat) : M process unit :=
  try_except
    (path <- getattr _settings_file "_settings_file" self ;;
     d <- getattr _settings "_settings" self ;;
     json_dump path d)
    isinstance_IOError
    (λ e, print ("Warning: Could not save settings: " +:+ exn_msg e)).

Definition get (self : nat) (key : string) (default : value)
    : M process value :=
  d <- getattr _settings "_settings" self ;;
  ret (match d !! key with Some v => v | None => default end).

Definition set (self : nat) (key : string) (v : value) : M process unit :=
  d <- getattr _settings "_settings" self ;;
  setattr__settings self (<[key := v]> d) ;;
  _save_settings self.

Definition get_last_directory (fs : os.filesystem) (self : nat)
    : M process value :=
  last_dir <- get self "last_directory" VNone ;;
  is_dir <- (if truthy last_dir then lift (os.path_isdir fs last_dir)
             else ret false) ;;
  if is_dir : bool then ret last_dir
  else ret (VStr project_root).

Definition set_last_directory (self : nat) (directory : string)
    : M process unit :=
  set self "last_directory" (VStr directory).

(** *** What happens in a process over time *)

(** The calls the program makes on the store, and what the world does to
    the disk in between. [settings] is the module-level instance. *)
Inductive action : Type :=
  | CallSettings
  | CallSet (key : string) (v : value)
  | CallSetLastDirectory (directory : string)
  | CallGet (key : string) (default : value)
  | CallGetLastDirectory (fs : os.filesystem)
  | Outside (files' : gmap string file_content) (fault' : option write_fault).

Definition step (settings : nat) (a : action) : M process unit :=
  match a with
  | CallSettings => _ <- Settings ;; ret tt
  | CallSet key v => set settings key v
  | CallSetLastDirectory directory => set_last_directory settings directory
  | CallGet key default => _ <- get settings key default ;; ret tt
  | CallGetLastDirectory fs => _ <- get_last_directory fs settings ;; ret tt
  | Outside files' fault' =>
      modify (λ σ, {| files := files'; fault := fault';
                      io_log := io_log σ; _instance := _instance σ;
                      heap := heap σ |})
  end.

(** The state after a run of actions; an exception ends the action it
    left, not the run. *)
Definition exec (settings : nat) (acts : list action) (σ : process)
    : process :=
  fold_left (λ σ a, snd (step settings a σ)) acts σ.

(** The process at its start, on a given disk. *)
Definition boot (files0 : gmap string file_content)
    (fault0 : option write_fault) : process :=
  {| files := files0; fault := fault0; io_log := [];
     _instance := None; heap := [] |}.
End Class.

(** *** The vocabulary of the properties *)

(** The process holds the one instance [self], initialised, with the
    mapping [d] in memory and [path] for its file. *)
Definition ready (self : nat) (σ : process) (d : gmap string value)
    (path : string) : Prop :=
  _instance σ = Some self ∧
  heap σ !! self = Some {| _initialized := true; _settings_file := Some path;
                           _settings := Some d |}.

Definition with_settings (d : gmap string value) (o : object) : object :=
  {| _initialized := _initialized o; _settings_file := _settings_file o;
     _settings := Some d |}.

(** The line [_save_settings] prints for the exception [e]. *)
Definition warning (e : exn) : io_event :=
  EvPrint ("Warning: Could not save settings: " +:+ exn_msg e).

(** The mapping an action is expected to leave in memory. *)
Definition settings_after (a : action) (d : gmap string value)
    : gmap string value :=
  match a with
  | CallSet key v => <[key := v]> d
  | CallSetLastDirectory directory => <["last_directory" := VStr directory]> d
  | _ => d
  end.

(** The action assigns to [key]. *)
Definition assigns (key : string) (a : action) : bool :=
  match a with
  | CallSet key' _ => bool_decide (key' = key)
  | CallSetLastDirectory _ => bool_decide ("last_directory" = key)
  | _ => false
  end.

(** The action assigns to some key. *)
Definition mutates (a : action) : bool :=
  match a with
  | CallSet _ _ | CallSetLastDirectory _ => true
  | _ => false
  end.

Definition settings_path (project_root : string) : string :=
  posixpath.join project_root _DEFAULT_SETTINGS_FILE.

End Settings.

(** ** [src/utils/constants.py] *)

Module Colors.
Definition PRIMARY : string := "#2C3E50".
Definition SECONDARY : string := "#34495E".
Definition ACCENT : string := "#3498DB".
Definition BACKGROUND : string := "#ECF0F1".
Definition TEXT : string := "#2C3E50".
Definition TEXT_LIGHT : string := "#FFFFFF".
Definition BORDER : string := "#BDC3C7".
Definition HOVER : string := "#2980B9".
Definition ACTIVE : string := "#1ABC9C".
End Colors.

(** ** [src/gui/components/nav_button.py] *)

Module NavButton.

(** Of the style sheet, the two colours that tell the two states apart. *)
Record style : Type := {
  background_color : string;
  hover_background_color : string;
}.

(** The button. [workspace_selected] holds what the signal of that name
    has emitted so far, oldest first. *)
Record button : Type := {
  text : string;
  workspace_id : string;
  _is_active : bool;
  styleSheet : style;
  workspace_selected : list string;
}.

Definition _update_style (self : button) : button :=
  {| text := text self; workspace_id := workspace_id self;
     _is_active := _is_active self;
     styleSheet :=
       if _is_active self
       then {| background_color := Colors.ACTIVE;
               hover_background_color := Colors.ACTIVE |}
       else {| background_color := Colors.SECONDARY;
               hover_background_color := Colors.HOVER |};
     workspace_selected := workspace_selected self |}.

Definition __init__ (text workspace_id : string) : button :=
  _update_style
    {| text := text; workspace_id := workspace_id; _is_active := false;
       styleSheet := {| background_color := ""; hover_background_color := "" |};
       workspace_selected := [] |}.

Definition emit_workspace_selected (id : string) (self : button) : button :=
  {| text := text self; workspace_id := workspace_id self;
     _is_active := _is_active self; styleSheet := styleSheet self;
     workspace_selected := workspace_selected self ++ [id] |}.

(** The slot [_connect_signals] connects to [clicked]. *)
Definition _on_clicked (self : button) : button :=
  if negb (_is_active self)
  then emit_workspace_selected (workspace_id self) self
  else self.

Definition is_active (self : button) : bool := _is_active self.

Definition set_active (active : bool) (self : button) : button :=
  _update_style
    {| text := text self; workspace_id := workspace_id self;
       _is_active := active; styleSheet := styleSheet self;
       workspace_selected := workspace_selected self |}.

(** *** A button over time *)

(** What reaches a button: the user clicks it, or the window sets its
    state. *)
Inductive event : Type := Click | SetActive (active : bool).

Definition handle (ev : event) (self : button) : button :=
  match ev with
  | Click => _on_clicked self
  | SetActive active => set_active active self
  end.

Definition run (evs : list event) (self : button) : button :=
  fold_left (λ b ev, handle ev b) evs self.

(** The identifiers a button of identifier [id] is expected to emit over
    [evs]: one for every click that finds it not active. *)
Fixpoint emissions (id : string) (active : bool) (evs : list event)
    : list string :=
  match evs with
  | [] => []
  | Click :: evs' =>
      if active then emissions id active evs'
      else id :: emissions id active evs'
  | SetActive active' :: evs' => emissions id active' evs'
  end.

End NavButton.

(** ** [src/gui/workspaces/input_tabs/file_import_tab.py] *)

Module FileImportTab.
Import Py.

(** [Qt.CheckState] *)
Inductive CheckState : Type := Unchecked | PartiallyChecked | Checked.

Global Instance CheckState_eq_dec : EqDecision CheckState.
Proof. solve_decision. Defined.

Record QListWidgetItem : Type := {
  text : string;
  ItemIsUserCheckable : bool;
  checkState : CheckState;
}.

Definition item_setCheckState (state : CheckState) (item : QListWidgetItem)
    : QListWidgetItem :=
  {| text := text item; ItemIsUserCheckable := ItemIsUserCheckable item;
     checkState := state |}.

(** The widgets of the tab that hold state. [format_combo] is the current
    index of the combo box and [file_list] the items of the list widget in
    display order; [files_selected] holds what the signal of that name has
    emitted so far, oldest first. *)
Record tab : Type := {
  _current_directory : string;
  directory_input : string;
  format_combo : Z;
  file_list : list QListWidgetItem;
  selected_label : string;
  files_selected : list (list string);
}.

Definition set__current_directory (d : string) (t : tab) : tab :=
  {| _current_directory := d; directory_input := directory_input t;
     format_combo := format_combo t; file_list := file_list t;
     selected_label := selected_label t; files_selected := files_selected t |}.

Definition set_directory_input (d : string) (t : tab) : tab :=
  {| _current_directory := _current_directory t; directory_input := d;
     format_combo := format_combo t; file_list := file_list t;
     selected_label := selected_label t; files_selected := files_selected t |}.

Definition set_format_combo (index : Z) (t : tab) : tab :=
  {| _current_directory := _current_directory t;
     directory_input := directory_input t;
     format_combo := index; file_list := file_list t;
     selected_label := selected_label t; files_selected := files_selected t |}.

Definition set_file_list (f : list QListWidgetItem → list QListWidgetItem)
    (t : tab) : tab :=
  {| _current_directory := _current_directory t;
     directory_input := directory_input t;
     format_combo := format_combo t; file_list := f (file_list t);
     selected_label := selected_label t; files_selected := files_selected t |}.

Definition set_selected_label (s : string) (t : tab) : tab :=
  {| _current_directory := _current_directory t;
     directory_input := directory_input t;
     format_combo := format_combo t; file_list := file_list t;
     selected_label := s; files_selected := files_selected t |}.

Definition emit_files_selected (selected : list string) (t : tab) : tab :=
  {| _current_directory := _current_directory t;
     directory_input := directory_input t;
     format_combo := format_combo t; file_list := file_list t;
     selected_label := selected_label t;
     files_selected := files_selected t ++ [selected] |}.

Definition FILE_FORMATS : list (string * list string) :=
  [ ("TIFF Images", [".tif"; ".tiff"]);
    ("PNG Images", [".png"]);
    ("JPEG Images", [".jpg"; ".jpeg"]);
    ("ND2 Images", [".nd2"]);
    ("All Supported", [".tif"; ".tiff"; ".png"; ".jpg"; ".jpeg"; ".nd2"]) ].

(** The tab once the four [_create_...] methods of [_init_ui] have run:
    the combo box shows the last format (set before its signal is
    connected), the list is empty and the label shows no selection. *)
Definition created : tab :=
  {| _current_directory := ""; directory_input := "";
     format_combo := Z.of_nat (length FILE_FORMATS) - 1;
     file_list := []; selected_label := "Selected: 0 files";
     files_selected := [] |}.

Definition _update_directory_display : M tab unit :=
  t <- get_state ;;
  modify (set_directory_input (_current_directory t)).

Definition _get_current_extensions (self : tab) : list string :=
  let index := format_combo self in
  if (0 <=? index)%Z && (index <? Z.of_nat (length FILE_FORMATS))%Z then
    match FILE_FORMATS !! Z.to_nat index with
    | Some (_, extensions) => extensions
    | None => []
    end
  else [].

Definition is_checked (item : QListWidgetItem) : bool :=
  bool_decide (checkState item = Checked).

Definition _get_selected_count (self : tab) : nat :=
  fold_range (length (file_list self))
    (λ count i,
       match file_list self !! i with
       | Some item => if is_checked item then count + 1 else count
       | None => count
       end) 0.

Definition _update_selected_count : M tab unit :=
  t <- get_state ;;
  let count := _get_selected_count t in
  modify (set_selected_label
            ("Selected: " +:+ pretty count +:+ " file"
               +:+ (if bool_decide (count ≠ 1) then "s" else ""))).

Definition get_selected_files (self : tab) : list string :=
  fold_range (length (file_list self))
    (λ selected i,
       match file_list self !! i with
       | Some item =>
           if is_checked item
           then selected ++ [posixpath.join (_current_directory self) (text item)]
           else selected
       | None => selected
       end) [].

Definition _emit_selection_changed : M tab unit :=
  t <- get_state ;;
  let selected_files := get_selected_files t in
  modify (emit_files_selected selected_files).

Definition _on_item_changed : M tab unit :=
  _update_selected_count ;;
  _emit_selection_changed.

(** [self.file_list.item(i).setCheckState(state)]. [item(i)] is [None]
    out of range. Qt stores a state that differs from the one the item
    has and then emits [itemChanged], which [_create_file_list_section]
    connects to [_on_item_changed]; it does nothing when the state is the
    one the item has. *)
Definition setCheckState (i : nat) (state : CheckState) : M tab unit :=
  t <- get_state ;;
  match file_list t !! i with
  | None => raise (Exn AttributeError
                     "'NoneType' object has no attribute 'setCheckState'")
  | Some item =>
      if bool_decide (checkState item = state) then ret tt
      else
        modify (set_file_list (<[i := item_setCheckState state item]>)) ;;
        _on_item_changed
  end.

(** The user clicks the check box of item [i]. *)
Definition click_checkbox (i : nat) : M tab unit :=
  t <- get_state ;;
  match file_list t !! i with
  | None => ret tt
  | Some item =>
      setCheckState i (if is_checked item then Unchecked else Checked)
  end.

Definition _on_select_all : M tab unit :=
  t <- get_state ;;
  for_range (length (file_list t)) (λ i, setCheckState i Checked) ;;
  _update_selected_count ;;
  _emit_selection_changed.

Definition _on_clear_all : M tab unit :=
  t <- get_state ;;
  for_range (length (file_list t)) (λ i, setCheckState i Unchecked) ;;
  _update_selected_count ;;
  _emit_selection_changed.

Section Refresh.
(** [str.lower] *)
Variable lower : string → string.
Variable fs : os.filesystem.

(** An item is given its flags and its state before [addItem] puts it
    into the list: no [itemChanged] is emitted for it. *)
Definition _refresh_file_list : M tab unit :=
  modify (set_file_list (λ _, [])) ;;
  t <- get_state ;;
  if negb (os.isdir fs (_current_directory t)) then ret tt
  else
    let extensions := _get_current_extensions t in
    try_except
      (names <- lift (os.listdir fs (_current_directory t)) ;;
       let files :=
         collect
           (λ filename,
              let filepath :=
                posixpath.join (_current_directory t) filename in
              os.isfile fs filepath
              && (let ext := lower (posixpath.splitext filename).2 in
                  bool_decide (ext ∈ extensions)))
           id names in
       let files := list_sort String.ltb lower files in
       for_each files
         (λ filename,
            let item := {| text := filename; ItemIsUserCheckable := true;
                           checkState := Unchecked |} in
            modify (set_file_list (λ l, l ++ [item]))))
      isinstance_PermissionError
      (λ _, ret tt) ;;
    _update_selected_count.

Definition _on_format_changed (index : Z) : M tab unit :=
  _refresh_file_list.

(** The user picks entry [index] of the combo box: Qt emits
    [currentIndexChanged], connected to [_on_format_changed], when the
    index is not the current one. *)
Definition pick_format (index : Z) : M tab unit :=
  t <- get_state ;;
  if bool_decide (format_combo t = index) then ret tt
  else
    modify (set_format_combo index) ;;
    _on_format_changed index.

(** *** The tab and the settings store together *)

Record app : Type := {
  proc : Settings.process;
  ui : tab;
}.

Definition in_proc {A} (c : M Settings.process A) : M app A :=
  λ a, let '(r, σ) := c (proc a) in (r, {| proc := σ; ui := ui a |}).

Definition in_ui {A} (c : M tab A) : M app A :=
  λ a, let '(r, t) := c (ui a) in (r, {| proc := proc a; ui := t |}).

Variable project_root : string.
(** The module-level [settings] of [settings.py]. *)
Variable settings : nat.

(** The end of [_init_ui], after the widgets were created. A directory
    that is not a [str] is refused by [QLineEdit.setText]. *)
Definition _init_ui : M app unit :=
  last <- in_proc (Settings.get_last_directory project_root fs settings) ;;
  match last with
  | VStr directory =>
      in_ui (modify (set__current_directory directory)) ;;
      in_ui _update_directory_display ;;
      in_ui _refresh_file_list
  | _ => raise (Exn TypeError
                  "setText(self, a0: Optional[str]): unexpected type")
  end.

(** [directory] is what [QFileDialog.getExistingDirectory] returned: the
    directory the user chose, or the empty string. *)
Definition _on_browse_clicked (directory : string) : M app unit :=
  if negb (String.eqb directory "") then
    in_ui (modify (set__current_directory directory)) ;;
    in_proc (Settings.set_last_directory settings directory) ;;
    in_ui _update_directory_display ;;
    in_ui _refresh_file_list
  else ret tt.
End Refresh.

(** *** The vocabulary of the properties *)

(** The text of the label for a count. *)
Definition count_label (count : nat) : string :=
  "Selected: " +:+ pretty count +:+ " file"
    +:+ (if bool_decide (count ≠ 1) then "s" else "").

(** The path of an item: the current directory joined with its name. *)
Definition full_path (self : tab) (item : QListWidgetItem) : string :=
  posixpath.join (_current_directory self) (text item).

(** The item [_refresh_file_list] makes for a file name. *)
Definition new_item (filename : string) : QListWidgetItem :=
  {| text := filename; ItemIsUserCheckable := true; checkState := Unchecked |}.

(** [filename] is a regular file of the current directory, and its
    extension, in lower case, is one of the active filter. *)
Definition passes_filter (lower : string → string) (fs : os.filesystem)
    (self : tab) (filename : string) : bool :=
  os.isfile fs (posixpath.join (_current_directory self) filename)
  && bool_decide (lower (posixpath.splitext filename).2
                  ∈ _get_current_extensions self).

(** [a] is not after [b] when case is ignored. *)
Definition name_le (lower : string → string) (a b : string) : Prop :=
  String.leb (lower a) (lower b) = true.

End FileImportTab.

(** ** A worked scenario

    An installation under [/opt/cell_image_analyzer], a directory of plate
    images, and what can go wrong with either. *)

Module Demo.
Import Py.

Definition root : string := "/opt/cell_image_analyzer".
Definition settings_file : string :=
  "/opt/cell_image_analyzer/app_settings.json".

(** The settings file holds text that is not JSON. *)
Definition malformed : gmap string Settings.file_content :=
  {[ settings_file :=
       Settings.Fails
         (Exn JSONDecodeError "Expecting value: line 1 column 1 (char 0)") ]}.

(** The settings file remembers a directory. *)
Definition saved : gmap string Settings.file_content :=
  {[ settings_file :=
       Settings.Parses {[ "last_directory" := VStr "/data/plates" ]} ]}.

(** The settings file cannot be opened for writing. *)
Definition denied : option Settings.write_fault :=
  Some (Settings.OpenFails
          (Exn PermissionError "[Errno 13] Permission denied")).

Definition plates : list string :=
  ["b.TIF"; "a.png"; "raw"; "B.tif"; ".tif"; "notes.txt"].

(** [/data/plates] holds five files and the directory [raw]. *)
Definition fs : os.filesystem :=
  {| os.isdir := λ p, bool_decide (p ∈ ["/data/plates"; "/data/plates/raw"]);
     os.isfile := λ p,
       bool_decide (p ∈ ["/data/plates/b.TIF"; "/data/plates/a.png";
                         "/data/plates/B.tif"; "/data/plates/.tif";
                         "/data/plates/notes.txt"]);
     os.listdir := λ p,
       if bool_decide (p = "/data/plates") then Normal plates
       else Raise (Exn FileNotFoundError
                     "[Errno 2] No such file or directory");
     os.fd_isdir := λ _, Normal false |}.

(** The same disk once the user lost the right to list [/data/plates]. *)
Definition fs_locked : os.filesystem :=
  {| os.isdir := os.isdir fs;
     os.isfile := os.isfile fs;
     os.listdir := λ _,
       Raise (Exn PermissionError "[Errno 13] Permission denied");
     os.fd_isdir := os.fd_isdir fs |}.

(** The same disk once [/data/plates] was removed. *)
Definition fs_removed : os.filesystem :=
  {| os.isdir := λ _, false;
     os.isfile := λ _, false;
     os.listdir := λ _,
       Raise (Exn FileNotFoundError "[Errno 2] No such file or directory");
     os.fd_isdir := λ _, Normal false |}.

(** The process once [settings.py] was imported from the disk [saved],
    which cannot be written. *)
Definition started : Settings.process :=
  snd (Settings.Settings root (Settings.boot saved denied)).

(** The application once [_init_ui] has run on that process: the tab is
    on [/data/plates], its list filled. *)
Definition opened : FileImportTab.app :=
  snd (FileImportTab._init_ui ascii_lower fs root 0
         {| FileImportTab.proc := started;
            FileImportTab.ui := FileImportTab.created |}).

Definition listed : FileImportTab.tab := FileImportTab.ui opened.

(** The user has checked the first and the third file. *)
Definition two_checked : FileImportTab.tab :=
  snd ((FileImportTab.click_checkbox 0 ;;
        FileImportTab.click_checkbox 2)%py listed).

(** The button of the analysis workspace, as the window makes it. *)
Definition analysis_button : NavButton.button :=
  NavButton.__init__ "Analysis" "analysis".

End Demo.

(** ** The rest of the tab, and the application over time *)

Module Session.
Import Py.

(** [QComboBox.currentText()]: the combo box holds the names of
    [FILE_FORMATS], in order; with no current entry the text is empty. *)
Definition currentText (self : FileImportTab.tab) : string :=
  let index := FileImportTab.format_combo self in
  if (0 <=? index)%Z then
    match FileImportTab.FILE_FORMATS !! Z.to_nat index with
    | Some (format_name, _) => format_name
    | None => ""
    end
  else "".

(** What [get_data] returns: a dict of these three keys. *)
Record data : Type := {
  directory : string;
  selected_files : list string;
  format_filter : string;
}.

Definition get_data (self : FileImportTab.tab) : data :=
  {| directory := FileImportTab._current_directory self;
     selected_files := FileImportTab.get_selected_files self;
     format_filter := currentText self |}.

(** What the user does on the tab, the directory left alone. *)
Inductive user_event : Type :=
  | ClickBox (i : nat)
  | SelectAll
  | ClearAll
  | PickFormat (index : Z).

Section Events.
Variable lower : string → string.
Variable fs : os.filesystem.

Definition on_event (ev : user_event) : M FileImportTab.tab unit :=
  match ev with
  | ClickBox i => FileImportTab.click_checkbox i
  | SelectAll => FileImportTab._on_select_all
  | ClearAll => FileImportTab._on_clear_all
  | PickFormat index => FileImportTab.pick_format lower fs index
  end.

(** The tab after the events; a slot that raised has ended, the tab
    lives on. *)
Definition after_events (evs : list user_event) (t : FileImportTab.tab)
    : FileImportTab.tab :=
  fold_left (λ t ev, snd (on_event ev t)) evs t.
End Events.

(** The label shows the count of the checked items. *)
Definition label_in_sync (t : FileImportTab.tab) : Prop :=
  FileImportTab.selected_label t
  = FileImportTab.count_label (FileImportTab._get_selected_count t).

(** The list is one [_refresh_file_list] could have made and the user
    could have checked: sorted by name, every item checkable, no item
    partially checked. *)
Definition well_listed (lower : string → string) (t : FileImportTab.tab)
    : Prop :=
  StronglySorted (FileImportTab.name_le lower)
                 (map FileImportTab.text (FileImportTab.file_list t))
  ∧ Forall (λ item,
              FileImportTab.ItemIsUserCheckable item = true
              ∧ FileImportTab.checkState item ≠ FileImportTab.PartiallyChecked)
           (FileImportTab.file_list t).

(** The items a call of [setCheckState(state)] would change. *)
Definition to_change (state : FileImportTab.CheckState)
    (l : list FileImportTab.QListWidgetItem) : nat :=
  length (List.filter
            (λ item, negb (bool_decide (FileImportTab.checkState item = state)))
            l).

(** The process is ended and started again: a new interpreter on the
    disk as it is. *)
Definition restart (σ : Settings.process) : Settings.process :=
  Settings.boot (Settings.files σ) (Settings.fault σ).

(** The action is one of the program, not of the world around it. *)
Definition of_the_program (a : Settings.action) : bool :=
  match a with
  | Settings.Outside _ _ => false
  | _ => true
  end.

(** The state a button is in after the events, from the state [active]. *)
Definition last_active (active : bool) (evs : list NavButton.event) : bool :=
  fold_left (λ active ev,
               match ev with
               | NavButton.Click => active
               | NavButton.SetActive active' => active'
               end) evs active.

(** The style [_update_style] sets for a state. *)
Definition style_of (active : bool) : NavButton.style :=
  if active
  then {| NavButton.background_color := Colors.ACTIVE;
          NavButton.hover_background_color := Colors.ACTIVE |}
  else {| NavButton.background_color := Colors.SECONDARY;
          NavButton.hover_background_color := Colors.HOVER |}.

(** The directory a store opens the tab on, when it remembers nothing or
    a string: the remembered one while it is there, the project root
    otherwise. *)
Definition remembered (project_root : string) (fs : os.filesystem)
    (d : gmap string value) : string :=
  match d !! "last_directory" with
  | Some (VStr s) =>
      if negb (String.eqb s "") && os.isdir fs s then s else project_root
  | _ => project_root
  end.

(** The settings file holds bytes that are not UTF-8: [open] succeeds and
    [json.load], which reads the file as text, raises. *)
Definition undecodable : gmap string Settings.file_content :=
  {[ Demo.settings_file :=
       Settings.Fails
         (Exn UnicodeDecodeError
              "'utf-8' codec can't decode byte 0xff in position 0") ]}.

(** The process of the scenario on a disk that can be written. *)
Definition writable : Settings.process :=
  snd (Settings.Settings Demo.root (Settings.boot Demo.saved None)).

(** The application on that process, before [_init_ui] ends. *)
Definition fresh : FileImportTab.app :=
  {| FileImportTab.proc := writable;
     FileImportTab.ui := FileImportTab.created |}.

End Session.

(** ** Tactics

    [run_py] unfolds the calls of the settings store down to the monad;
    [run_py_with H] then runs them, reading the instance from [H]. *)

Ltac run_py :=
  unfold Settings.Settings, Settings.__new__, Settings.__init__,
    Settings._load_settings, Settings._get_settings_path,
    Settings.get_last_directory, Settings.get, Settings.set,
    Settings.set_last_directory, Settings._save_settings, Settings.getattr,
    Settings.deref, Settings.setattr__settings,
    Settings.setattr__initialized, Settings.setattr__settings_file,
    Settings.json_dump, Settings.json_load, Settings.path_exists,
    Settings.print, Settings.log,
    Py.bind, Py.ret, Py.raise, Py.lift, Py.modify, Py.get_state,
    Py.try_except.

Ltac run_py_with H :=
  run_py;
  repeat (progress (cbn; rewrite ?list_lookup_alter_eq, ?H)).

(* ================================================================== *)
(** * Part II. Properties                                              *)
(* ================================================================== *)

Import Py.

(** ** The runtime: loops and the sort *)

Lemma fold_left_collect {A B} (c : A → bool) (f : A → B) xs (out : list B) :
  fold_left (λ out x, if c x then out ++ [f x] else out) xs out
  = out ++ map f (List.filter c xs).
Proof.
  revert out. induction xs as [|x xs IH]; intros out; simpl.
  - by rewrite app_nil_r.
  - rewrite IH. destruct (c x); simpl; [|done].
    by rewrite <- app_assoc.
Qed.

Lemma collect_map_filter {A B} (c : A → bool) (f : A → B) xs :
  collect c f xs = map f (List.filter c xs).
Proof. unfold collect. by rewrite fold_left_collect. Qed.

(** A loop over [range(len(l))] that reads [l[i]] is a loop over [l]. *)
Lemma fold_range_items {A B} (l : list B) (g : A → B → A) (a : A) :
  fold_range (length l)
    (λ acc i, match l !! i with Some x => g acc x | None => acc end) a
  = fold_left g l a.
Proof.
  unfold fold_range.
  enough (G : ∀ pre rest a,
    fold_left (λ acc i, match (pre ++ rest) !! i with
                        | Some x => g acc x | None => acc end)
              (seq (length pre) (length rest)) a
    = fold_left g rest a) by exact (G [] l a).
  intros pre rest. revert pre.
  induction rest as [|x rest IH]; intros pre a'; simpl; [done|].
  rewrite list_lookup_middle by done.
  replace (pre ++ x :: rest) with ((pre ++ [x]) ++ rest)
    by (by rewrite <- app_assoc).
  specialize (IH (pre ++ [x]) (g a' x)).
  rewrite length_app in IH. simpl in IH.
  replace (length pre + 1) with (S (length pre)) in IH by lia.
  exact IH.
Qed.

Section SortFacts.
Context {A K : Type} (ltb : K → K → bool) (key : A → K).

Local Abbreviation key_le := (Py.key_le ltb key).

Hypothesis ltb_asym : ∀ a b, ltb a b = true → ltb b a = false.
Hypothesis key_le_trans : ∀ x y z, key_le x y → key_le y z → key_le x z.

Lemma sort_insert_perm x l : sort_insert ltb key x l ≡ₚ x :: l.
Proof.
  induction l as [|y l IH]; simpl; [done|].
  destruct (ltb (key y) (key x)); [|done].
  rewrite IH. apply Permutation_swap.
Qed.

Lemma list_sort_perm l : list_sort ltb key l ≡ₚ l.
Proof.
  induction l as [|x l IH]; simpl; [done|].
  by rewrite sort_insert_perm, IH.
Qed.

Lemma sort_insert_sorted x l :
  StronglySorted key_le l → StronglySorted key_le (sort_insert ltb key x l).
Proof.
  induction 1 as [|y l Hl IH Hy]; simpl.
  - repeat constructor.
  - destruct (ltb (key y) (key x)) eqn:Hyx.
    + constructor; [done|].
      rewrite sort_insert_perm. constructor; [|done].
      by apply ltb_asym.
    + constructor; [by constructor|].
      constructor; [done|].
      eapply Forall_impl; [exact Hy|].
      intros z Hz. by apply (key_le_trans x y z).
Qed.

Lemma list_sort_sorted l : StronglySorted key_le (list_sort ltb key l).
Proof.
  induction l as [|x l IH]; simpl; [constructor|].
  by apply sort_insert_sorted.
Qed.

(** The sort is stable: the elements of one key keep their order. *)
Lemma sort_insert_stable (same : A → bool) x l :
  (∀ y z, same y = true → same z = true → ltb (key y) (key z) = false) →
  List.filter same (sort_insert ltb key x l) = List.filter same (x :: l).
Proof.
  intros Hsame. induction l as [|y l IH]; [done|].
  cbn [sort_insert]. destruct (ltb (key y) (key x)) eqn:Hyx; [|done].
  cbn [List.filter] in *. rewrite IH.
  destruct (same x) eqn:Hx, (same y) eqn:Hy; try done.
  by rewrite Hsame in Hyx.
Qed.

Lemma list_sort_stable (same : A → bool) l :
  (∀ y z, same y = true → same z = true → ltb (key y) (key z) = false) →
  List.filter same (list_sort ltb key l) = List.filter same l.
Proof.
  intros Hsame. induction l as [|x l IH]; [done|].
  cbn [list_sort]. rewrite sort_insert_stable by done.
  cbn [List.filter]. by rewrite IH.
Qed.
End SortFacts.

(** The order of Python on [str], as [String.ltb] has it. *)

Lemma string_ltb_lt a b : String.ltb a b = true ↔ OrderedTypeEx.String_as_OT.lt a b.
Proof.
  rewrite <- OrderedTypeEx.String_as_OT.cmp_lt.
  unfold String.ltb, OrderedTypeEx.String_as_OT.cmp.
  destruct (String.compare a b); split; congruence.
Qed.

Lemma string_ltb_irrefl a : String.ltb a a = false.
Proof.
  destruct (String.ltb a a) eqn:H; [|done].
  apply string_ltb_lt in H.
  by apply OrderedTypeEx.String_as_OT.lt_not_eq in H.
Qed.

Lemma string_ltb_trans a b c :
  String.ltb a b = true → String.ltb b c = true → String.ltb a c = true.
Proof.
  rewrite !string_ltb_lt. apply OrderedTypeEx.String_as_OT.lt_trans.
Qed.

Lemma string_ltb_asym a b : String.ltb a b = true → String.ltb b a = false.
Proof.
  intros Hab. destruct (String.ltb b a) eqn:Hba; [|done].
  pose proof (string_ltb_trans _ _ _ Hab Hba) as H.
  by rewrite string_ltb_irrefl in H.
Qed.

Lemma string_ltb_leb a b : String.ltb b a = false ↔ String.leb a b = true.
Proof.
  unfold String.ltb, String.leb. rewrite (String.compare_antisym a b).
  destruct (String.compare b a); simpl; split; congruence.
Qed.

Lemma string_ltb_total a b :
  String.ltb a b = false → String.ltb b a = false → a = b.
Proof.
  rewrite !string_ltb_leb. intros. by apply String.leb_antisym.
Qed.

Lemma string_leb_trans a b c :
  String.leb a b = true → String.leb b c = true → String.leb a c = true.
Proof.
  rewrite <- !string_ltb_leb. intros Hba Hcb.
  destruct (String.ltb c a) eqn:Hca; [|done].
  destruct (String.ltb b a) eqn:E1; [done|].
  destruct (String.ltb a b) eqn:E2.
  - by rewrite (string_ltb_trans _ _ _ Hca E2) in Hcb.
  - assert (a = b) as -> by (by apply string_ltb_total). congruence.
Qed.

Lemma StronglySorted_weaken {A} (R R' : A → A → Prop) l :
  (∀ a b, R a b → R' a b) → StronglySorted R l → StronglySorted R' l.
Proof.
  intros HR. induction 1 as [|x l _ IH Hx]; constructor; [done|].
  eapply Forall_impl; [exact Hx|]. intros y. apply HR.
Qed.

(** [l.sort(key=str.lower)]: what the sort gives is sorted, and names of
    one lower-case form keep the order they came in. *)
Lemma sort_by_lower_sorted (lower : string → string) l :
  StronglySorted (FileImportTab.name_le lower)
                 (list_sort String.ltb lower l).
Proof.
  eapply StronglySorted_weaken; [|apply (list_sort_sorted String.ltb lower)].
  - intros a b. unfold key_le, FileImportTab.name_le. apply string_ltb_leb.
  - intros a b. apply string_ltb_asym.
  - intros x y z. unfold key_le. rewrite !string_ltb_leb.
    apply string_leb_trans.
Qed.

Lemma sort_by_lower_stable (lower : string → string) (k : string) l :
  List.filter (λ x, String.eqb (lower x) k) (list_sort String.ltb lower l)
  = List.filter (λ x, String.eqb (lower x) k) l.
Proof.
  apply list_sort_stable. intros y z Hy Hz.
  apply String.eqb_eq in Hy, Hz. rewrite Hy, Hz. apply string_ltb_irrefl.
Qed.

(** ** The settings store *)

Import Settings.

Section SettingsFacts.
Variable project_root : string.
Local Abbreviation path := (settings_path project_root).

Lemma get_run self σ d p key default :
  ready self σ d p →
  get self key default σ
  = (Normal (match d !! key with Some v => v | None => default end), σ).
Proof. intros [_ Ho]. by run_py_with Ho. Qed.

(** What [set] does, by what the write meets. *)
Lemma set_run self σ d p key v :
  ready self σ d p →
  let d' := <[key := v]> d in
  let σ1 := set_io_log (λ l, l ++ [EvWrite p d'])
              (set_heap (alter (with_settings d') self) σ) in
  set self key v σ =
    match fault σ with
    | None => (Normal tt, set_files (insert p (Parses d')) σ1)
    | Some (OpenFails e) =>
        if isinstance_IOError e
        then (Normal tt, set_io_log (λ l, l ++ [warning e]) σ1)
        else (Raise e, σ1)
    | Some (DumpFails e) =>
        let σ2 :=
          set_files
            (insert p (Fails (Exn JSONDecodeError "Expecting value"))) σ1 in
        if isinstance_IOError e
        then (Normal tt, set_io_log (λ l, l ++ [warning e]) σ2)
        else (Raise e, σ2)
    end.
Proof.
  intros [_ Ho]. run_py_with Ho.
  by destruct (fault σ) as [[e|e]|].
Qed.

Lemma set_ready self σ d p key v :
  ready self σ d p → ready self (snd (set self key v σ)) (<[key := v]> d) p.
Proof.
  intros Hr. rewrite (set_run _ _ _ _ _ _ Hr). destruct Hr as [Hi Ho].
  assert (alter (with_settings (<[key:=v]> d)) self (heap σ) !! self
          = Some {| _initialized := true; _settings_file := Some p;
                    _settings := Some (<[key := v]> d) |}) as Hl
    by (by rewrite list_lookup_alter_eq, Ho).
  destruct (fault σ) as [[e|e]|]; [destruct (isinstance_IOError e)..|];
    by split.
Qed.

(** A call of the constructor on an initialised instance has no effect. *)
Lemma Settings_again self σ d p :
  ready self σ d p → Settings.Settings project_root σ = (Normal self, σ).
Proof. intros [Hi Ho]. run_py. rewrite Hi. by run_py_with Ho. Qed.

Lemma get_last_directory_state fs self σ :
  snd (get_last_directory project_root fs self σ) = σ.
Proof.
  run_py. cbn. destruct (heap σ !! self) as [o|]; [|done]. cbn.
  destruct (_settings o) as [d|]; [|done]. cbn.
  destruct (truthy _); cbn; [|done].
  destruct (os.path_isdir fs _) as [[]|]; done.
Qed.

(** The mapping in memory follows the actions, whatever the disk does. *)
Lemma step_ready self σ d p a :
  ready self σ d p →
  ready self (snd (step project_root self a σ)) (settings_after a d) p.
Proof.
  intros Hr. destruct a as [|key v|directory|key default|fs|files' fault'];
    cbn [step settings_after].
  - unfold bind. by rewrite (Settings_again _ _ _ _ Hr).
  - by apply set_ready.
  - by apply set_ready.
  - unfold bind. by rewrite (get_run _ _ _ _ _ _ Hr).
  - unfold bind.
    pose proof (get_last_directory_state fs self σ) as Hs.
    destruct (get_last_directory _ _ _ _) as [[?|?] σ']; cbn in *; by subst.
  - destruct Hr. by split.
Qed.

Lemma exec_ready self acts σ d p :
  ready self σ d p →
  ready self (exec project_root self acts σ)
        (fold_left (λ d a, settings_after a d) acts d) p.
Proof.
  revert σ d. induction acts as [|a acts IH]; intros σ d Hr; [done|].
  cbn. apply IH. by apply step_ready.
Qed.

Lemma settings_after_other key acts d :
  Forall (λ a, assigns key a = false) acts →
  fold_left (λ d a, settings_after a d) acts d !! key = d !! key.
Proof.
  intros H. revert d. induction H as [|a acts Ha _ IH]; intros d; [done|].
  cbn. rewrite IH. destruct a; cbn in *; try done.
  - apply lookup_insert_ne. by apply bool_decide_eq_false in Ha.
  - apply lookup_insert_ne. by apply bool_decide_eq_false in Ha.
Qed.

Lemma settings_after_reads acts d :
  Forall (λ a, mutates a = false) acts →
  fold_left (λ d a, settings_after a d) acts d = d.
Proof.
  intros H. revert d. induction H as [|a acts Ha _ IH]; intros d; [done|].
  cbn. rewrite IH. by destruct a.
Qed.

(** What [_load_settings] does on an instance that knows its file, by
    what the disk holds. *)
Lemma _load_settings_run self σ o p :
  heap σ !! self = Some o → _settings_file o = Some p →
  let seen := set_io_log (λ l, l ++ [EvExists p]) σ in
  let read := set_io_log (λ l, l ++ [EvRead p]) seen in
  _load_settings self σ =
    match files σ !! p with
    | None => (Normal tt, set_heap (alter (with_settings ∅) self) seen)
    | Some (Parses d) =>
        (Normal tt, set_heap (alter (with_settings d) self) read)
    | Some (Fails e) =>
        if isinstance_JSONDecodeError e || isinstance_IOError e
        then (Normal tt, set_heap (alter (with_settings ∅) self) read)
        else (Raise e, read)
    end.
Proof.
  intros Ho Hp. run_py. cbn. rewrite Ho. cbn. rewrite Hp. cbn.
  destruct (files σ !! p) as [[d|e]|] eqn:Hf; cbn; rewrite ?Hf; cbn;
    [done| |done].
  by destruct (isinstance_JSONDecodeError e || isinstance_IOError e).
Qed.

(** The first call of the constructor, by what the disk holds. *)
Lemma Settings_boot files0 fault0 :
  let first := Settings.Settings project_root (boot files0 fault0) in
  match files0 !! path with
  | None => fst first = Normal 0 ∧ ready 0 (snd first) ∅ path
            ∧ io_log (snd first) = [EvExists path]
  | Some (Parses d) => fst first = Normal 0 ∧ ready 0 (snd first) d path
            ∧ io_log (snd first) = [EvExists path; EvRead path]
  | Some (Fails e) =>
      ready 0 (snd first) ∅ path
      ∧ io_log (snd first) = [EvExists path; EvRead path]
      ∧ fst first =
          if isinstance_JSONDecodeError e || isinstance_IOError e
          then Normal 0 else Raise e
  end.
Proof.
  run_py. unfold settings_path.
  generalize (posixpath.join project_root _DEFAULT_SETTINGS_FILE) as p.
  intros p. cbn.
  destruct (files0 !! p) as [[d|e]|] eqn:Hf; cbn; rewrite ?Hf; cbn.
  - done.
  - destruct (isinstance_JSONDecodeError e || isinstance_IOError e); done.
  - done.
Qed.
End SettingsFacts.

Section SettingsProperties.
Variable project_root : string.
Local Abbreviation path := (settings_path project_root).

(** X18. The first call of [Settings()] loads the file. When the file is
    missing, or is there and [json.load] raises what [_load_settings]
    catches, a [JSONDecodeError] or an [IOError], the call returns, the
    mapping in memory is empty, and from then on every
    [get(key, default)] returns [default], as long as nothing is
    assigned. *)
Theorem load_failure_gives_empty_settings files0 fault0 :
  (files0 !! path = None
   ∨ ∃ e, files0 !! path = Some (Fails e)
          ∧ isinstance_JSONDecodeError e || isinstance_IOError e = true) →
  ∃ σ,
    Settings.Settings project_root (boot files0 fault0) = (Normal 0, σ)
    ∧ ready 0 σ ∅ path
    ∧ ∀ acts key default,
        Forall (λ a, mutates a = false) acts →
        let σ' := exec project_root 0 acts σ in
        get 0 key default σ' = (Normal default, σ').
Proof.
  intros Hfile.
  pose proof (Settings_boot project_root files0 fault0) as Hboot.
  cbv zeta in Hboot.
  destruct (Settings.Settings project_root (boot files0 fault0))
    as [r σ] eqn:Hfirst.
  cbn [fst snd] in Hboot. exists σ.
  assert (r = Normal 0 ∧ ready 0 σ ∅ path) as [-> Hr].
  { destruct Hfile as [Hnone|(e & Hbad & He)].
    - rewrite Hnone in Hboot. tauto.
    - rewrite Hbad, He in Hboot. tauto. }
  repeat split; [apply Hr..|].
  intros acts key default Hacts σ'.
  pose proof (exec_ready project_root 0 acts σ ∅ path Hr) as Hr'.
  rewrite (settings_after_reads _ _ Hacts) in Hr'.
  by rewrite (get_run 0 σ' ∅ path key default Hr').
Qed.

(** C2. Loading the settings store can raise. [_load_settings] catches
    [json.JSONDecodeError] and [IOError] only. A settings file that is
    there and whose bytes are not UTF-8 makes [json.load] raise
    [UnicodeDecodeError], which is neither: the exception leaves
    [_load_settings], [__init__] and the first call of [Settings()], the
    one [settings.py] makes when it is imported. The file was looked for
    and read, and the instance is left behind initialised, with the empty
    mapping of [__init__]. *)
Theorem undecodable_settings_file_makes_loading_raise files0 fault0 e :
  files0 !! path = Some (Fails e) →
  exn_cls e = UnicodeDecodeError →
  ∃ σ,
    Settings.Settings project_root (boot files0 fault0) = (Raise e, σ)
    ∧ io_log σ = [EvExists path; EvRead path]
    ∧ ready 0 σ ∅ path.
Proof.
  intros Hfile Hcls.
  pose proof (Settings_boot project_root files0 fault0) as Hboot.
  cbv zeta in Hboot. rewrite Hfile in Hboot.
  unfold isinstance_JSONDecodeError, isinstance_IOError in Hboot.
  rewrite Hcls in Hboot. cbn [orb] in Hboot.
  destruct (Settings.Settings project_root (boot files0 fault0))
    as [r σ] eqn:Hfirst.
  cbn [fst snd] in Hboot. destruct Hboot as (Hr & Hlog & ->).
  by exists σ.
Qed.

(** C3. With the path [stored] under the key [last_directory],
    [get_last_directory()] returns [stored] when it is not empty and is a
    directory on disk, and the project root when it is not: it returns
    [stored] only in the first case, or when [stored] is the project root
    itself. It returns the project root as well when the key holds
    nothing, or a value Python takes for false. The process is left as it
    was. *)
Theorem get_last_directory_falls_back fs self σ d p :
  ready self σ d p →
  let call := get_last_directory project_root fs self σ in
  (∀ stored, d !! "last_directory" = Some (VStr stored) →
     (stored ≠ "" ∧ os.isdir fs stored = true →
        call = (Normal (VStr stored), σ))
     ∧ (¬ (stored ≠ "" ∧ os.isdir fs stored = true) →
        call = (Normal (VStr project_root), σ))
     ∧ (call = (Normal (VStr stored), σ) →
        (stored ≠ "" ∧ os.isdir fs stored = true) ∨ stored = project_root))
  ∧ (∀ v, d !! "last_directory" = Some v → truthy v = false →
       call = (Normal (VStr project_root), σ))
  ∧ (d !! "last_directory" = None →
       call = (Normal (VStr project_root), σ)).
Proof.
  intros Hr call. unfold call, get_last_directory, bind.
  rewrite (get_run self σ d p _ _ Hr).
  split; [|split].
  - intros stored ->. cbn.
    destruct (String.eqb_spec stored "") as [->|Hne]; cbn.
    + split; [by intros [? _]|]. split; [done|].
      intros [= <-]. by right.
    + destruct (os.isdir fs stored); cbn.
      * split; [done|]. split; [intros H; by destruct H|]. by left.
      * split; [by intros [_ ?]|]. split; [done|].
        intros [= <-]. by right.
  - intros v -> Hv. by rewrite Hv.
  - by intros ->.
Qed.

(** C7. [set(key, value)] puts the value into the mapping in memory and
    at once tries to write the whole mapping to the settings file. When
    the write succeeds the file holds the mapping. When it raises an
    [IOError], [set] prints the warning and returns. Either way the value
    is what every later [get(key, default)] returns, whatever the process
    and the disk do in between, until [key] is assigned again. *)
Theorem set_takes_effect_even_if_save_fails self σ d p key v :
  ready self σ d p →
  let d' := <[key := v]> d in
  let σ' := snd (set self key v σ) in
  ready self σ' d' p
  ∧ (∃ after, io_log σ' = io_log σ ++ EvWrite p d' :: after)
  ∧ (fault σ = None →
       set self key v σ = (Normal tt, σ')
       ∧ files σ' !! p = Some (Parses d')
       ∧ io_log σ' = io_log σ ++ [EvWrite p d'])
  ∧ (∀ e, fault σ = Some (OpenFails e) ∨ fault σ = Some (DumpFails e) →
       isinstance_IOError e = true →
       set self key v σ = (Normal tt, σ')
       ∧ io_log σ' = io_log σ ++ [EvWrite p d'; warning e])
  ∧ (∀ acts default,
       Forall (λ a, assigns key a = false) acts →
       let σ'' := exec project_root self acts σ' in
       get self key default σ'' = (Normal v, σ'')).
Proof.
  intros Hr d' σ'.
  pose proof (set_ready self σ d p key v Hr) as Hr'. fold σ' d' in Hr'.
  pose proof (set_run self σ d p key v Hr) as Hrun. cbv zeta in Hrun.
  fold d' in Hrun.
  split; [done|]. split; [|split; [|split]].
  - unfold σ'. rewrite Hrun.
    destruct (fault σ) as [[e|e]|]; [destruct (isinstance_IOError e)..|];
      cbn; rewrite <- ?app_assoc; by eexists.
  - intros Hf. unfold σ'. rewrite Hrun, Hf. cbn.
    split; [done|]. split; [|done]. apply lookup_insert_eq.
  - intros e He Hio. unfold σ'. rewrite Hrun.
    destruct He as [-> | ->]; rewrite Hio; cbn;
      by rewrite <- app_assoc.
  - intros acts default Hacts σ''.
    pose proof (exec_ready project_root self acts σ' d' p Hr') as Hr''.
    rewrite (get_run self σ'' _ p key default Hr'').
    rewrite (settings_after_other key acts d' Hacts).
    unfold d'. by rewrite lookup_insert_eq.
Qed.

(** C9. In a process, the first call of [Settings()] makes the instance
    (it returns it unless the file raised what [_load_settings] does not
    catch). Whatever the process and the disk do afterwards, a further
    call returns that same instance and leaves the whole process as it
    was: nothing is read, and the mapping in memory is not touched. *)
Theorem Settings_is_a_singleton files0 fault0 acts :
  let first := Settings.Settings project_root (boot files0 fault0) in
  let σ := exec project_root 0 acts (snd first) in
  (fst first = Normal 0
   ∨ ∃ e, fst first = Raise e ∧ files0 !! path = Some (Fails e))
  ∧ Settings.Settings project_root σ = (Normal 0, σ).
Proof.
  intros first σ.
  pose proof (Settings_boot project_root files0 fault0) as Hboot.
  cbv zeta in Hboot. fold first in Hboot.
  assert (∃ d, ready 0 (snd first) d path) as [d Hr].
  { destruct (files0 !! path) as [[d|e]|]; [exists d|exists ∅..]; tauto. }
  split.
  - destruct (files0 !! path) as [[d0|e]|]; [tauto| |tauto].
    destruct Hboot as (_ & _ & ->).
    destruct (_ || _); [by left|right; by exists e].
  - pose proof (exec_ready project_root 0 acts _ d path Hr) as Hr'.
    exact (Settings_again project_root 0 σ _ path Hr').
Qed.
End SettingsProperties.

(** ** The file import tab *)

Import FileImportTab.

Lemma get_selected_files_eq t :
  get_selected_files t = map (full_path t) (List.filter is_checked (file_list t)).
Proof.
  etransitivity;
    [exact (fold_range_items (file_list t)
              (λ selected item,
                 if is_checked item
                 then selected ++ [full_path t item] else selected) [])|].
  apply (fold_left_collect is_checked (full_path t)).
Qed.

Lemma _get_selected_count_eq t :
  _get_selected_count t = length (List.filter is_checked (file_list t)).
Proof.
  etransitivity;
    [exact (fold_range_items (file_list t)
              (λ count item, if is_checked item then count + 1 else count)
              0)|].
  enough (G : ∀ l n,
    fold_left (λ count item, if is_checked item then count + 1 else count) l n
    = n + length (List.filter is_checked l)) by apply G.
  induction l as [|x l IH]; intros n; cbn; [lia|].
  rewrite IH. destruct (is_checked x); cbn; lia.
Qed.

Lemma filter_checked_all l :
  List.filter is_checked (map (item_setCheckState Checked) l)
  = map (item_setCheckState Checked) l.
Proof. induction l as [|x l IH]; cbn; [done|]. by rewrite IH. Qed.

Lemma filter_checked_none l :
  Forall (λ item, checkState item = Unchecked) l →
  List.filter is_checked l = [].
Proof.
  induction 1 as [|x l Hx _ IH]; cbn; [done|].
  unfold is_checked at 1. by rewrite Hx.
Qed.

Lemma count_unchecked l :
  Forall (λ item, checkState item = Unchecked) l →
  ∀ t, file_list t = l → _get_selected_count t = 0.
Proof.
  intros H t <-. rewrite _get_selected_count_eq.
  by rewrite filter_checked_none.
Qed.

Lemma Forall_item_setCheckState state l :
  Forall (λ item, checkState item = state)
         (map (item_setCheckState state) l).
Proof. induction l; cbn; by constructor. Qed.

Lemma item_setCheckState_same state item :
  checkState item = state → item_setCheckState state item = item.
Proof. intros <-. by destruct item. Qed.

Lemma _update_selected_count_run t :
  _update_selected_count t
  = (Normal tt, set_selected_label (count_label (_get_selected_count t)) t).
Proof. done. Qed.

Lemma _on_item_changed_run t :
  _on_item_changed t
  = (Normal tt,
     emit_files_selected (get_selected_files t)
       (set_selected_label (count_label (_get_selected_count t)) t)).
Proof. done. Qed.

Lemma setCheckState_run i state t item :
  file_list t !! i = Some item →
  setCheckState i state t =
    if bool_decide (checkState item = state) then (Normal tt, t)
    else _on_item_changed
           (set_file_list (<[i := item_setCheckState state item]>) t).
Proof.
  intros Hi. unfold setCheckState, bind, get_state. rewrite Hi.
  by destruct (bool_decide _).
Qed.

(** What one turn of the loops of [_on_select_all] and [_on_clear_all]
    leaves behind: the item has the state, and the slot may have emitted. *)
Lemma setCheckState_step i state t item :
  file_list t !! i = Some item →
  ∃ t',
    setCheckState i state t = (Normal tt, t')
    ∧ file_list t' = <[i := item_setCheckState state item]> (file_list t)
    ∧ _current_directory t' = _current_directory t
    ∧ directory_input t' = directory_input t
    ∧ format_combo t' = format_combo t
    ∧ ∃ more, files_selected t' = files_selected t ++ more.
Proof.
  intros Hi. rewrite (setCheckState_run _ _ _ _ Hi).
  destruct (bool_decide_reflect (checkState item = state)) as [Heq|Hne].
  - exists t. rewrite (item_setCheckState_same _ _ Heq).
    rewrite list_insert_id by done.
    repeat split. exists []. by rewrite app_nil_r.
  - rewrite _on_item_changed_run. eexists. split; [reflexivity|].
    cbn. repeat split. by eexists.
Qed.

(** The loop, from index [i] on: an invariant by induction on what is
    left of the range. *)
Lemma for_range_setCheckState state n : ∀ i t,
  i + n = length (file_list t) →
  ∃ t',
    for_range_from i n (λ i, setCheckState i state) t = (Normal tt, t')
    ∧ file_list t'
      = take i (file_list t)
        ++ map (item_setCheckState state) (drop i (file_list t))
    ∧ _current_directory t' = _current_directory t
    ∧ directory_input t' = directory_input t
    ∧ format_combo t' = format_combo t
    ∧ ∃ more, files_selected t' = files_selected t ++ more.
Proof.
  induction n as [|n IH]; intros i t Hlen; cbn [for_range_from].
  - exists t. split; [done|].
    rewrite drop_ge by lia. rewrite take_ge by lia.
    cbn. rewrite app_nil_r. repeat split. exists []. by rewrite app_nil_r.
  - destruct (lookup_lt_is_Some_2 (file_list t) i) as [item Hi]; [lia|].
    destruct (setCheckState_step i state t item Hi)
      as (t1 & Hrun & Hl1 & Hd1 & Hin1 & Hf1 & more1 & He1).
    destruct (IH (S i) t1)
      as (t' & Hrun' & Hl' & Hd' & Hin' & Hf' & more' & He').
    { rewrite Hl1, length_insert. lia. }
    exists t'. unfold bind. rewrite Hrun. split; [done|].
    split; [|repeat split; try congruence].
    + rewrite Hl', Hl1.
      rewrite (take_S_r _ i (item_setCheckState state item))
        by (apply list_lookup_insert_eq; lia).
      rewrite take_insert_ge by lia. rewrite drop_insert_lt by lia.
      rewrite (drop_S _ _ _ Hi). cbn. by rewrite <- app_assoc.
    + exists (more1 ++ more').
      rewrite He', He1. by rewrite app_assoc.
Qed.

(** What [_on_select_all] and [_on_clear_all] share: the loop, then the
    count, then the signal. *)
Lemma set_all_and_report state t :
  ∃ t' more,
    (t0 <- get_state ;;
     for_range (length (file_list t0)) (λ i, setCheckState i state) ;;
     _update_selected_count ;;
     _emit_selection_changed)%py t = (Normal tt, t')
    ∧ file_list t' = map (item_setCheckState state) (file_list t)
    ∧ _current_directory t' = _current_directory t
    ∧ directory_input t' = directory_input t
    ∧ format_combo t' = format_combo t
    ∧ selected_label t' = count_label (_get_selected_count t')
    ∧ files_selected t' = files_selected t ++ more ++ [get_selected_files t'].
Proof.
  destruct (for_range_setCheckState state (length (file_list t)) 0 t)
    as (t1 & Hrun & Hl & Hd & Hin & Hf & more & He); [done|].
  cbn [take drop] in Hl. change ([] ++ ?l) with l in Hl.
  eexists _, more. unfold bind at 1. unfold get_state at 1.
  unfold bind at 1, for_range. rewrite Hrun. cbn.
  split; [reflexivity|]. cbn. rewrite He, <- app_assoc. done.
Qed.

Lemma for_each_addItem (mk : string → QListWidgetItem) files : ∀ t,
  for_each files (λ filename, modify (set_file_list (λ l, l ++ [mk filename]))) t
  = (Normal tt, set_file_list (λ l, l ++ map mk files) t).
Proof.
  induction files as [|x files IH]; intros t; cbn.
  - destruct t; cbn. unfold ret, set_file_list; cbn. by rewrite app_nil_r.
  - unfold bind, modify. rewrite IH. destruct t; unfold set_file_list; cbn.
    by rewrite <- app_assoc.
Qed.

Lemma isabs_join a b :
  posixpath.isabs a = true → posixpath.isabs (posixpath.join a b) = true.
Proof.
  unfold posixpath.isabs, posixpath.join. intros Ha.
  destruct (posixpath.startswith posixpath.sep b) eqn:Hb; [done|].
  destruct a as [|c a]; [done|].
  by destruct (_ || _).
Qed.

Section Refreshing.
Variable lower : string → string.
Variable fs : os.filesystem.

(** What [_refresh_file_list] does, case by case. *)
Lemma _refresh_file_list_run t :
  let cleared := set_file_list (λ _, []) t in
  _refresh_file_list lower fs t =
    if os.isdir fs (_current_directory t) then
      match os.listdir fs (_current_directory t) with
      | Normal names =>
          let files := list_sort String.ltb lower
                         (List.filter (passes_filter lower fs t) names) in
          (Normal tt,
           set_selected_label "Selected: 0 files"
             (set_file_list (λ _, map new_item files) t))
      | Raise e =>
          if isinstance_PermissionError e
          then (Normal tt, set_selected_label "Selected: 0 files" cleared)
          else (Raise e, cleared)
      end
    else (Normal tt, cleared).
Proof.
  unfold _refresh_file_list, bind at 1, modify at 1, bind at 1, get_state.
  cbn [_current_directory set_file_list].
  destruct (os.isdir fs (_current_directory t)); cbn [negb]; [|done].
  unfold bind at 1, try_except, bind at 1, lift.
  destruct (os.listdir fs (_current_directory t)) as [names|e].
  - rewrite for_each_addItem, collect_map_filter, map_id.
    rewrite _update_selected_count_run.
    erewrite count_unchecked; [| |reflexivity].
    + done.
    + cbn. apply (Forall_fmap _ _ _). by apply Forall_true.
  - destruct (isinstance_PermissionError e); done.
Qed.

(** After a refresh no item is checked, whatever the disk did. *)
Lemma refresh_resets_selection t :
  let t' := snd (_refresh_file_list lower fs t) in
  Forall (λ item, checkState item = Unchecked) (file_list t')
  ∧ get_selected_files t' = []
  ∧ _get_selected_count t' = 0.
Proof.
  intros t'.
  assert (Forall (λ item, checkState item = Unchecked) (file_list t')) as H.
  { unfold t'. rewrite _refresh_file_list_run. cbv zeta.
    destruct (os.isdir fs _); [|by constructor].
    destruct (os.listdir fs _) as [names|e].
    - cbn. apply (Forall_fmap _ _ _). by apply Forall_true.
    - destruct (isinstance_PermissionError e); by constructor. }
  split; [done|]. split.
  - by rewrite get_selected_files_eq, filter_checked_none.
  - by apply (count_unchecked (file_list t')).
Qed.

(** A refresh touches the list and the label only. *)
Lemma refresh_keeps_the_rest t :
  let t' := snd (_refresh_file_list lower fs t) in
  _current_directory t' = _current_directory t
  ∧ directory_input t' = directory_input t
  ∧ format_combo t' = format_combo t
  ∧ files_selected t' = files_selected t.
Proof.
  cbv zeta. rewrite _refresh_file_list_run. cbv zeta.
  destruct (os.isdir fs _); [|done].
  destruct (os.listdir fs _) as [names|e]; [done|].
  by destruct (isinstance_PermissionError e).
Qed.

(** A refresh that got past the check of the directory and returned has
    recomputed the label. *)
Lemma refresh_recomputes_label t :
  os.isdir fs (_current_directory t) = true →
  fst (_refresh_file_list lower fs t) = Normal tt →
  selected_label (snd (_refresh_file_list lower fs t)) = "Selected: 0 files".
Proof.
  intros Hdir. rewrite _refresh_file_list_run. cbv zeta. rewrite Hdir.
  destruct (os.listdir fs _) as [names|e]; [done|].
  by destruct (isinstance_PermissionError e).
Qed.

(** C1. When the current directory is a directory and [os.listdir] gives
    [names], then for every format of [FILE_FORMATS] the combo box may
    show, with its list [extensions], the refresh returns and the list
    shows, unchecked, the names that are regular files of the directory
    and whose extension, in lower case, is one of [extensions]: exactly
    those, each as often as it was listed, sorted by their lower-case
    form. *)
Theorem refresh_shows_filtered_files_sorted t names format_name extensions :
  os.isdir fs (_current_directory t) = true →
  os.listdir fs (_current_directory t) = Normal names →
  (0 ≤ format_combo t)%Z →
  FILE_FORMATS !! Z.to_nat (format_combo t) = Some (format_name, extensions) →
  let shown := λ filename,
    os.isfile fs (posixpath.join (_current_directory t) filename)
    && bool_decide (lower (posixpath.splitext filename).2 ∈ extensions) in
  ∃ t',
    _refresh_file_list lower fs t = (Normal tt, t')
    ∧ map text (file_list t')
      = list_sort String.ltb lower (List.filter shown names)
    ∧ map text (file_list t') ≡ₚ List.filter shown names
    ∧ (∀ filename,
         filename ∈ map text (file_list t')
         ↔ filename ∈ names
           ∧ os.isfile fs (posixpath.join (_current_directory t) filename)
             = true
           ∧ lower (posixpath.splitext filename).2 ∈ extensions)
    ∧ StronglySorted (name_le lower) (map text (file_list t'))
    ∧ Forall (λ item, checkState item = Unchecked) (file_list t').
Proof.
  intros Hdir Hls Hge Hformat shown.
  assert (_get_current_extensions t = extensions) as Hext.
  { unfold _get_current_extensions.
    pose proof (lookup_lt_Some _ _ _ Hformat) as Hlt.
    rewrite (proj2 (Z.leb_le _ _) Hge).
    rewrite (proj2 (Z.ltb_lt _ _)) by lia.
    cbn [andb]. by rewrite Hformat. }
  assert (List.filter (passes_filter lower fs t) names
          = List.filter shown names) as Hfilter.
  { apply filter_ext. intros filename. unfold passes_filter, shown.
    by rewrite Hext. }
  pose proof (_refresh_file_list_run t) as Hrun. cbv zeta in Hrun.
  rewrite Hdir, Hls, Hfilter in Hrun. eexists. split; [exact Hrun|].
  cbn [file_list set_selected_label set_file_list].
  assert (∀ l, map text (map new_item l) = l) as Htext
    by (intros l; induction l; cbn; congruence).
  rewrite Htext. split; [done|]. split; [apply list_sort_perm|].
  split; [|split].
  - intros filename. rewrite list_sort_perm.
    rewrite list_elem_of_In, filter_In, <- list_elem_of_In.
    unfold shown. rewrite andb_true_iff, bool_decide_eq_true. tauto.
  - apply sort_by_lower_sorted.
  - apply (Forall_fmap _ _ _). by apply Forall_true.
Qed.

(** C8. When the current directory is not a directory, the refresh
    returns and leaves the tab as it was but for the list, which is empty.
    When it is one and [os.listdir] raises [PermissionError], the refresh
    returns as well, the list is empty and the label shows no selection. *)
Theorem refresh_of_unusable_directory_is_silent t :
  (os.isdir fs (_current_directory t) = false →
     _refresh_file_list lower fs t = (Normal tt, set_file_list (λ _, []) t))
  ∧ (∀ e, os.isdir fs (_current_directory t) = true →
       os.listdir fs (_current_directory t) = Raise e →
       isinstance_PermissionError e = true →
       _refresh_file_list lower fs t
       = (Normal tt,
          set_selected_label "Selected: 0 files"
            (set_file_list (λ _, []) t))).
Proof.
  pose proof (_refresh_file_list_run t) as Hrun. cbv zeta in Hrun.
  split.
  - intros Hdir. by rewrite Hdir in Hrun.
  - intros e Hdir Hls He. by rewrite Hdir, Hls, He in Hrun.
Qed.
End Refreshing.

(** C4. From any state of the check boxes, Select All returns with every
    item checked, the label showing the number of items and the last
    emission listing every path; Clear All after it returns with every
    item unchecked, a count of 0, the label showing 0 and the empty list
    as the last emission. Each of the two recomputes and emits last, on
    the state it has made uniform; [mid1] and [mid2] are what the slot of
    [itemChanged] emitted while the loop ran. *)
Theorem select_all_then_clear_all t :
  ∃ t1 t2 mid1 mid2,
    _on_select_all t = (Normal tt, t1)
    ∧ _on_clear_all t1 = (Normal tt, t2)
    ∧ file_list t1 = map (item_setCheckState Checked) (file_list t)
    ∧ selected_label t1 = count_label (length (file_list t))
    ∧ files_selected t1
      = files_selected t ++ mid1 ++ [map (full_path t) (file_list t)]
    ∧ file_list t2 = map (item_setCheckState Unchecked) (file_list t)
    ∧ _get_selected_count t2 = 0
    ∧ selected_label t2 = "Selected: 0 files"
    ∧ get_selected_files t2 = []
    ∧ files_selected t2 = files_selected t1 ++ mid2 ++ [[]].
Proof.
  destruct (set_all_and_report Checked t)
    as (t1 & mid1 & Hrun1 & Hl1 & Hd1 & _ & _ & Hlab1 & He1).
  destruct (set_all_and_report Unchecked t1)
    as (t2 & mid2 & Hrun2 & Hl2 & Hd2 & _ & _ & Hlab2 & He2).
  assert (file_list t2 = map (item_setCheckState Unchecked) (file_list t))
    as Hl2'.
  { rewrite Hl2, Hl1, map_map. done. }
  assert (_get_selected_count t2 = 0) as Hc2.
  { apply (count_unchecked (file_list t2)); [|done].
    rewrite Hl2'. apply Forall_item_setCheckState. }
  assert (get_selected_files t2 = []) as Hs2.
  { rewrite get_selected_files_eq, filter_checked_none; [done|].
    rewrite Hl2'. apply Forall_item_setCheckState. }
  assert (get_selected_files t1 = map (full_path t) (file_list t)) as Hs1.
  { rewrite get_selected_files_eq, Hl1, filter_checked_all, map_map.
    apply map_ext. intros item. unfold full_path. by rewrite Hd1. }
  assert (_get_selected_count t1 = length (file_list t)) as Hc1.
  { by rewrite _get_selected_count_eq, Hl1, filter_checked_all, length_map. }
  exists t1, t2, mid1, mid2.
  split; [exact Hrun1|]. split; [exact Hrun2|].
  rewrite Hlab1, Hc1, Hlab2, Hc2, He2, Hs2, He1, Hs1.
  by repeat split.
Qed.

(** C5. [get_selected_files()] is the list of the paths (the current
    directory joined with the name) of the checked items, in the order of
    the list. A click on a check box, as any change of a check state,
    changes that item and emits exactly what [get_selected_files()] then
    returns. The paths are absolute when the current directory is. *)
Theorem get_selected_files_lists_checked_paths t :
  get_selected_files t
  = map (full_path t) (List.filter is_checked (file_list t))
  ∧ (∀ i item, file_list t !! i = Some item →
       ∃ t',
         click_checkbox i t = (Normal tt, t')
         ∧ file_list t'
           = <[i := item_setCheckState
                      (if is_checked item then Unchecked else Checked) item]>
               (file_list t)
         ∧ files_selected t' = files_selected t ++ [get_selected_files t'])
  ∧ (∀ i state item, file_list t !! i = Some item →
       checkState item ≠ state →
       ∃ t',
         setCheckState i state t = (Normal tt, t')
         ∧ file_list t' = <[i := item_setCheckState state item]> (file_list t)
         ∧ files_selected t' = files_selected t ++ [get_selected_files t'])
  ∧ (posixpath.isabs (_current_directory t) = true →
       Forall (λ p, posixpath.isabs p = true) (get_selected_files t)).
Proof.
  assert (∀ i state item, file_list t !! i = Some item →
       checkState item ≠ state →
       ∃ t',
         setCheckState i state t = (Normal tt, t')
         ∧ file_list t' = <[i := item_setCheckState state item]> (file_list t)
         ∧ files_selected t' = files_selected t ++ [get_selected_files t'])
    as Hset.
  { intros i state item Hi Hne.
    rewrite (setCheckState_run _ _ _ _ Hi).
    rewrite bool_decide_eq_false_2 by done.
    rewrite _on_item_changed_run. eexists. split; [reflexivity|]. done. }
  split; [apply get_selected_files_eq|]. split; [|split; [exact Hset|]].
  - intros i item Hi. unfold click_checkbox, bind, get_state. rewrite Hi.
    apply Hset; [done|]. unfold is_checked.
    destruct (bool_decide_reflect (checkState item = Checked)) as [->|];
      done.
  - intros Habs. rewrite get_selected_files_eq.
    apply (Forall_fmap _ _ _), Forall_forall. intros item _.
    by apply isabs_join.
Qed.

(** A directory chosen in the dialog becomes the current one, is handed
    to the settings store and shown, and the list is refreshed on it. *)
Lemma _on_browse_clicked_run lower fs settings directory a σ' :
  directory ≠ "" →
  set_last_directory settings directory (proc a) = (Normal tt, σ') →
  let refreshed :=
    _refresh_file_list lower fs
      (set_directory_input directory
         (set__current_directory directory (ui a))) in
  _on_browse_clicked lower fs settings directory a
  = (fst refreshed, {| proc := σ'; ui := snd refreshed |}).
Proof.
  intros Hne Hset refreshed. unfold refreshed, _on_browse_clicked.
  generalize (_refresh_file_list lower fs) as refresh. intros refresh.
  destruct (String.eqb_spec directory "") as [|_]; [done|]. cbn [negb].
  unfold bind, in_ui, in_proc, modify, _update_directory_display, get_state.
  cbn. rewrite Hset. cbn. by destruct (refresh _).
Qed.

(** On start the tab opens on the directory the settings store returns,
    shows it, and lists it. *)
Lemma _init_ui_run lower fs project_root settings directory a :
  get_last_directory project_root fs settings (proc a)
  = (Normal (VStr directory), proc a) →
  let refreshed :=
    _refresh_file_list lower fs
      (set_directory_input directory
         (set__current_directory directory (ui a))) in
  _init_ui lower fs project_root settings a
  = (fst refreshed, {| proc := proc a; ui := snd refreshed |}).
Proof.
  intros Hget refreshed. unfold refreshed, _init_ui.
  generalize (_refresh_file_list lower fs) as refresh. intros refresh.
  unfold bind at 1, in_proc at 1. rewrite Hget.
  unfold bind, in_ui, modify, _update_directory_display, get_state.
  cbn. by destruct (refresh _).
Qed.

(** C6. A change of the format filter refreshes the list, and so does a
    directory chosen in the dialog (once the settings store has taken it).
    Whatever was checked before and whatever the disk holds, no item is
    checked afterwards, [get_selected_files()] is empty and the count of
    selected files is 0; the label shows 0 whenever the refresh got past
    the check of the directory and returned. *)
Theorem filter_or_directory_change_resets_selection lower fs :
  (∀ t index, format_combo t ≠ index →
     let call := pick_format lower fs index t in
     let t' := snd call in
     call = _refresh_file_list lower fs (set_format_combo index t)
     ∧ format_combo t' = index
     ∧ Forall (λ item, checkState item = Unchecked) (file_list t')
     ∧ get_selected_files t' = []
     ∧ _get_selected_count t' = 0
     ∧ (os.isdir fs (_current_directory t) = true → fst call = Normal tt →
        selected_label t' = "Selected: 0 files"))
  ∧ (∀ settings directory a σ', directory ≠ "" →
     set_last_directory settings directory (proc a) = (Normal tt, σ') →
     let call := _on_browse_clicked lower fs settings directory a in
     let t' := ui (snd call) in
     _current_directory t' = directory
     ∧ Forall (λ item, checkState item = Unchecked) (file_list t')
     ∧ get_selected_files t' = []
     ∧ _get_selected_count t' = 0
     ∧ (os.isdir fs directory = true → fst call = Normal tt →
        selected_label t' = "Selected: 0 files")).
Proof.
  split.
  - intros t index Hne call t'.
    assert (call = _refresh_file_list lower fs (set_format_combo index t))
      as Hcall.
    { unfold call, pick_format, bind, get_state.
      by rewrite bool_decide_eq_false_2. }
    unfold t'. rewrite Hcall. split; [done|].
    destruct (refresh_keeps_the_rest lower fs (set_format_combo index t))
      as (_ & _ & Hf & _).
    destruct (refresh_resets_selection lower fs (set_format_combo index t))
      as (Hu & Hs & Hc).
    repeat split; try done.
    intros Hdir. by apply refresh_recomputes_label.
  - intros settings directory a σ' Hne Hset call t'.
    unfold t', call.
    rewrite (_on_browse_clicked_run lower fs settings directory a σ' Hne Hset).
    cbn [fst snd ui].
    set (t0 := set_directory_input directory
                 (set__current_directory directory (ui a))).
    destruct (refresh_keeps_the_rest lower fs t0) as (Hd & _ & _ & _).
    destruct (refresh_resets_selection lower fs t0) as (Hu & Hs & Hc).
    repeat split; try done.
    intros Hdir. by apply refresh_recomputes_label.
Qed.

(** ** The navigation button *)

Lemma run_emissions evs : ∀ b,
  NavButton.workspace_selected (NavButton.run evs b)
  = NavButton.workspace_selected b
    ++ NavButton.emissions (NavButton.workspace_id b)
                           (NavButton._is_active b) evs.
Proof.
  induction evs as [|ev evs IH]; intros b; cbn.
  - by rewrite app_nil_r.
  - unfold NavButton.run in IH. rewrite IH. destruct ev as [|active]; cbn.
    + unfold NavButton._on_clicked.
      destruct (NavButton._is_active b) eqn:Hb; cbn.
      * by rewrite Hb.
      * rewrite Hb. by rewrite <- app_assoc.
    + done.
Qed.

(** C10. A click makes the button emit its workspace identifier exactly
    when it is not active, and nothing when it is active; the click does
    not change the state, [set_active] sets it and emits nothing. Over any
    sequence of clicks and calls of [set_active], what was emitted is one
    identifier for each click that found the button not active. *)
Theorem click_emits_iff_not_active b :
  (NavButton.workspace_selected (NavButton._on_clicked b)
   = NavButton.workspace_selected b ++ [NavButton.workspace_id b]
   ↔ NavButton._is_active b = false)
  ∧ (NavButton.workspace_selected (NavButton._on_clicked b)
     = NavButton.workspace_selected b
     ↔ NavButton._is_active b = true)
  ∧ NavButton._is_active (NavButton._on_clicked b) = NavButton._is_active b
  ∧ (∀ active,
       NavButton._is_active (NavButton.set_active active b) = active
       ∧ NavButton.workspace_id (NavButton.set_active active b)
         = NavButton.workspace_id b
       ∧ NavButton.workspace_selected (NavButton.set_active active b)
         = NavButton.workspace_selected b)
  ∧ (∀ evs,
       NavButton.workspace_selected (NavButton.run evs b)
       = NavButton.workspace_selected b
         ++ NavButton.emissions (NavButton.workspace_id b)
                                (NavButton._is_active b) evs).
Proof.
  assert (∀ (l : list string) x, l ≠ l ++ [x]) as Hneq.
  { intros l x H. apply (f_equal length) in H.
    rewrite length_app in H. cbn in H. lia. }
  pose proof (λ evs, run_emissions evs b) as Hrun.
  unfold NavButton._on_clicked.
  destruct (NavButton._is_active b) eqn:Hb; cbn.
  - split; [split; [intros H; by apply Hneq in H|done]|].
    by repeat split.
  - split; [done|].
    split; [split; [intros H; symmetry in H; by apply Hneq in H|done]|].
    by repeat split.
Qed.

(** ** The properties on the scenario *)

Example splitext_examples :
  posixpath.splitext "plate_01.TIF" = ("plate_01", ".TIF")
  ∧ posixpath.splitext "archive.tar.gz" = ("archive.tar", ".gz")
  ∧ posixpath.splitext ".tif" = (".tif", "")
  ∧ posixpath.splitext "raw.d/readme" = ("raw.d/readme", "").
Proof. by repeat split. Qed.

Example join_examples :
  posixpath.join "/data/plates" "a.png" = "/data/plates/a.png"
  ∧ posixpath.join "/data/plates/" "a.png" = "/data/plates/a.png"
  ∧ posixpath.join "" "a.png" = "a.png"
  ∧ posixpath.join "/data/plates" "/etc/passwd" = "/etc/passwd".
Proof. by repeat split. Qed.

(** On start the tab opens on the remembered directory and lists its
    images: [raw] is a directory, [.tif] has no extension and [notes.txt]
    is no image; [b.TIF] stays before [B.tif], as listed. *)
Example opened_on_the_remembered_directory :
  _current_directory Demo.listed = "/data/plates"
  ∧ directory_input Demo.listed = "/data/plates"
  ∧ map text (file_list Demo.listed) = ["a.png"; "b.TIF"; "B.tif"]
  ∧ selected_label Demo.listed = "Selected: 0 files"
  ∧ files_selected Demo.listed = [].
Proof. vm_compute. by repeat split. Qed.

Example two_checked_emitted_twice :
  files_selected Demo.two_checked
  = [["/data/plates/a.png"]; ["/data/plates/a.png"; "/data/plates/B.tif"]].
Proof. by vm_compute. Qed.

(** C1 on the scenario: the tab with two files checked, set to the first
    format and refreshed on the directory as it is. Of the six names
    listed, the two TIFF files are shown, [b.TIF] before [B.tif] as
    listed; [a.png] is a file of another format, [raw] a directory, and
    [.tif] and [notes.txt] have no extension of the format. *)
Lemma refresh_shows_filtered_files_sorted_witness :
  os.isdir Demo.fs (_current_directory (set_format_combo 0 Demo.two_checked))
  = true
  ∧ os.listdir Demo.fs
      (_current_directory (set_format_combo 0 Demo.two_checked))
    = Normal Demo.plates
  ∧ FILE_FORMATS !! Z.to_nat (format_combo (set_format_combo 0 Demo.two_checked))
    = Some ("TIFF Images", [".tif"; ".tiff"])
  ∧ ∃ t',
      _refresh_file_list ascii_lower Demo.fs
        (set_format_combo 0 Demo.two_checked) = (Normal tt, t')
      ∧ map text (file_list t') = ["b.TIF"; "B.tif"]
      ∧ StronglySorted (name_le ascii_lower) (map text (file_list t'))
      ∧ Forall (λ item, checkState item = Unchecked) (file_list t').
Proof.
  split; [by vm_compute|]. split; [by vm_compute|]. split; [done|].
  destruct (refresh_shows_filtered_files_sorted ascii_lower Demo.fs
              (set_format_combo 0 Demo.two_checked) Demo.plates
              "TIFF Images" [".tif"; ".tiff"])
    as (t' & Hrun & Hl & _ & _ & Hsorted & Hu);
    [by vm_compute|by vm_compute|done|done|].
  exists t'. split; [exact Hrun|]. split; [|by split].
  rewrite Hl. by vm_compute.
Defined.

(** X18 on the scenario: the settings file is there and is not JSON. *)
Lemma load_failure_gives_empty_settings_witness :
  Demo.malformed !! settings_path Demo.root
  = Some (Fails (Exn JSONDecodeError
                   "Expecting value: line 1 column 1 (char 0)"))
  ∧ ∃ σ,
      Settings.Settings Demo.root (boot Demo.malformed None) = (Normal 0, σ)
      ∧ ready 0 σ ∅ (settings_path Demo.root)
      ∧ ∀ acts key default,
          Forall (λ a, mutates a = false) acts →
          let σ' := exec Demo.root 0 acts σ in
          get 0 key default σ' = (Normal default, σ').
Proof.
  split; [by vm_compute|].
  apply (load_failure_gives_empty_settings Demo.root Demo.malformed None).
  right. eexists. split; by vm_compute.
Defined.

(** C2 on the scenario: the settings file holds bytes that are not
    UTF-8, and the first call of [Settings()] raises. *)
Lemma undecodable_settings_file_makes_loading_raise_witness :
  Session.undecodable !! settings_path Demo.root
  = Some (Fails (Exn UnicodeDecodeError
                   "'utf-8' codec can't decode byte 0xff in position 0"))
  ∧ ∃ σ,
      Settings.Settings Demo.root (boot Session.undecodable None)
      = (Raise (Exn UnicodeDecodeError
                  "'utf-8' codec can't decode byte 0xff in position 0"), σ)
      ∧ io_log σ = [EvExists (settings_path Demo.root);
                    EvRead (settings_path Demo.root)]
      ∧ ready 0 σ ∅ (settings_path Demo.root).
Proof.
  split; [by vm_compute|].
  apply (undecodable_settings_file_makes_loading_raise Demo.root
           Session.undecodable None); by vm_compute.
Defined.

(** C3 on the scenario: the remembered directory is returned while it is
    there, and the project root once it was removed. *)
Lemma get_last_directory_falls_back_witness :
  ready 0 Demo.started {[ "last_directory" := VStr "/data/plates" ]}
        Demo.settings_file
  ∧ get_last_directory Demo.root Demo.fs 0 Demo.started
    = (Normal (VStr "/data/plates"), Demo.started)
  ∧ get_last_directory Demo.root Demo.fs_removed 0 Demo.started
    = (Normal (VStr Demo.root), Demo.started).
Proof.
  assert (ready 0 Demo.started {[ "last_directory" := VStr "/data/plates" ]}
                Demo.settings_file) as Hr
    by (split; by vm_compute).
  split; [exact Hr|]. split.
  - destruct (get_last_directory_falls_back Demo.root Demo.fs 0 Demo.started
                _ _ Hr) as [Hstored _].
    destruct (Hstored "/data/plates") as (Hthere & _ & _); [by vm_compute|].
    apply Hthere. split; [done|by vm_compute].
  - destruct (get_last_directory_falls_back Demo.root Demo.fs_removed 0
                Demo.started _ _ Hr) as [Hstored _].
    destruct (Hstored "/data/plates") as (_ & Hgone & _); [by vm_compute|].
    apply Hgone. by intros [_ ?].
Defined.

(** C7 on the scenario: the settings file cannot be written; [set]
    returns all the same and the new directory is what [get] returns. *)
Lemma set_takes_effect_even_if_save_fails_witness :
  ready 0 Demo.started {[ "last_directory" := VStr "/data/plates" ]}
        Demo.settings_file
  ∧ Demo.denied
    = Some (OpenFails (Exn PermissionError "[Errno 13] Permission denied"))
  ∧ set 0 "last_directory" (VStr "/data/other") Demo.started
    = (Normal tt, snd (set 0 "last_directory" (VStr "/data/other")
                           Demo.started))
  ∧ get 0 "last_directory" VNone
        (snd (set 0 "last_directory" (VStr "/data/other") Demo.started))
    = (Normal (VStr "/data/other"),
       snd (set 0 "last_directory" (VStr "/data/other") Demo.started)).
Proof.
  assert (ready 0 Demo.started {[ "last_directory" := VStr "/data/plates" ]}
                Demo.settings_file) as Hr
    by (split; by vm_compute).
  split; [exact Hr|]. split; [done|].
  destruct (set_takes_effect_even_if_save_fails Demo.root 0 Demo.started
              _ _ "last_directory" (VStr "/data/other") Hr)
    as (_ & _ & _ & Hfail & Hlater).
  split.
  - apply (Hfail (Exn PermissionError "[Errno 13] Permission denied"));
      [left|]; by vm_compute.
  - apply (Hlater [] VNone). constructor.
Defined.

(** C5 on the scenario: the two checked files, and a click on the second
    check box. *)
Lemma get_selected_files_lists_checked_paths_witness :
  get_selected_files Demo.two_checked
  = ["/data/plates/a.png"; "/data/plates/B.tif"]
  ∧ (∃ t',
       click_checkbox 1 Demo.two_checked = (Normal tt, t')
       ∧ files_selected t'
         = files_selected Demo.two_checked ++ [get_selected_files t'])
  ∧ Forall (λ p, posixpath.isabs p = true)
           (get_selected_files Demo.two_checked).
Proof.
  destruct (get_selected_files_lists_checked_paths Demo.two_checked)
    as (Hsel & Hclick & _ & Habs).
  split; [rewrite Hsel; by vm_compute|]. split.
  - destruct (Hclick 1 (new_item "b.TIF")) as (t' & Hrun & _ & Hemit);
      [by vm_compute|].
    by exists t'.
  - apply Habs. by vm_compute.
Defined.

(** C8 on the scenario: the directory was removed, or may not be listed
    any more. *)
Lemma refresh_of_unusable_directory_is_silent_witness :
  _refresh_file_list ascii_lower Demo.fs_removed Demo.two_checked
  = (Normal tt, set_file_list (λ _, []) Demo.two_checked)
  ∧ _refresh_file_list ascii_lower Demo.fs_locked Demo.two_checked
    = (Normal tt,
       set_selected_label "Selected: 0 files"
         (set_file_list (λ _, []) Demo.two_checked)).
Proof.
  split.
  - apply (proj1 (refresh_of_unusable_directory_is_silent
                    ascii_lower Demo.fs_removed Demo.two_checked)).
    by vm_compute.
  - apply (proj2 (refresh_of_unusable_directory_is_silent
                    ascii_lower Demo.fs_locked Demo.two_checked)
             (Exn PermissionError "[Errno 13] Permission denied"));
      by vm_compute.
Defined.

(** C10 on the scenario: the new button emits on a click, an active one
    does not, and over a sequence only the clicks on the inactive button
    count. *)
Lemma click_emits_iff_not_active_witness :
  NavButton.workspace_selected (NavButton._on_clicked Demo.analysis_button)
  = ["analysis"]
  ∧ NavButton.workspace_selected
      (NavButton._on_clicked
         (NavButton.set_active true Demo.analysis_button))
    = []
  ∧ NavButton.workspace_selected
      (NavButton.run
         [NavButton.Click; NavButton.SetActive true; NavButton.Click;
          NavButton.Click; NavButton.SetActive false; NavButton.Click]
         Demo.analysis_button)
    = ["analysis"; "analysis"].
Proof.
  split; [|split].
  - destruct (click_emits_iff_not_active Demo.analysis_button)
      as ([_ Hemit] & _).
    rewrite Hemit; by vm_compute.
  - destruct (click_emits_iff_not_active
                (NavButton.set_active true Demo.analysis_button))
      as (_ & [_ Hquiet] & _).
    rewrite Hquiet; by vm_compute.
  - destruct (click_emits_iff_not_active Demo.analysis_button)
      as (_ & _ & _ & _ & Hrun).
    rewrite Hrun. by vm_compute.
Defined.

(** C4 and C9 on the scenario. *)
Example select_all_then_clear_all_on_the_scenario :
  selected_label (snd (_on_select_all Demo.two_checked)) = "Selected: 3 files"
  ∧ last (files_selected (snd (_on_select_all Demo.two_checked)))
    = Some ["/data/plates/a.png"; "/data/plates/b.TIF"; "/data/plates/B.tif"]
  ∧ selected_label
      (snd ((_on_select_all ;; _on_clear_all)%py Demo.two_checked))
    = "Selected: 0 files"
  ∧ last (files_selected
            (snd ((_on_select_all ;; _on_clear_all)%py Demo.two_checked)))
    = Some [].
Proof. vm_compute. by repeat split. Qed.

Example second_construction_on_the_scenario :
  Settings.Settings Demo.root Demo.started = (Normal 0, Demo.started)
  ∧ io_log Demo.started
    = [EvExists Demo.settings_file; EvRead Demo.settings_file].
Proof. split; by vm_compute. Qed.

(** C6 on the scenario: two files are checked and the user picks the
    first format, with the directory in place and after it was removed. *)
Lemma filter_or_directory_change_resets_selection_witness :
  get_selected_files Demo.two_checked
  = ["/data/plates/a.png"; "/data/plates/B.tif"]
  ∧ get_selected_files
      (snd (pick_format ascii_lower Demo.fs 0 Demo.two_checked)) = []
  ∧ selected_label
      (snd (pick_format ascii_lower Demo.fs 0 Demo.two_checked))
    = "Selected: 0 files"
  ∧ get_selected_files
      (snd (pick_format ascii_lower Demo.fs_removed 0 Demo.two_checked)) = []
  ∧ _get_selected_count
      (snd (pick_format ascii_lower Demo.fs_removed 0 Demo.two_checked)) = 0.
Proof.
  destruct (proj1 (filter_or_directory_change_resets_selection
                     ascii_lower Demo.fs) Demo.two_checked 0%Z)
    as (_ & _ & _ & Hsel & _ & Hlabel); [by vm_compute|].
  destruct (proj1 (filter_or_directory_change_resets_selection
                     ascii_lower Demo.fs_removed) Demo.two_checked 0%Z)
    as (_ & _ & _ & Hsel' & Hcount' & _); [by vm_compute|].
  split; [by vm_compute|]. split; [exact Hsel|].
  split; [apply Hlabel; by vm_compute|]. by split.
Defined.

(** When the directory is gone the refresh returns before it recomputes
    the label: the list is empty and the label keeps its text. *)
Example label_is_kept_when_the_directory_is_gone :
  selected_label Demo.two_checked = "Selected: 2 files"
  ∧ pick_format ascii_lower Demo.fs_removed 0 Demo.two_checked
    = (Normal tt,
       {| _current_directory := "/data/plates";
          directory_input := "/data/plates";
          format_combo := 0;
          file_list := [];
          selected_label := "Selected: 2 files";
          files_selected := files_selected Demo.two_checked |}).
Proof. vm_compute. by split. Qed.

(* ================================================================== *)
(** * Part III. Further properties                                     *)
(* ================================================================== *)

Import Session.

(** ** The settings store over time *)

Section SettingsOverTime.
Variable project_root : string.
Local Abbreviation path := (settings_path project_root).

(** A call of the program leaves the fault of the disk as it is. *)
Lemma step_fault self σ d p a :
  ready self σ d p → of_the_program a = true →
  fault (snd (step project_root self a σ)) = fault σ.
Proof.
  intros Hr Ha. destruct a as [|key v|dir|key default|fs|files' fault'];
    cbn [step]; try done.
  - unfold bind. by rewrite (Settings_again _ _ _ _ _ Hr).
  - rewrite (set_run _ _ _ _ _ _ Hr).
    destruct (fault σ) as [[e|e]|] eqn:Hf;
      [destruct (isinstance_IOError e)..|]; done.
  - unfold set_last_directory. rewrite (set_run _ _ _ _ _ _ Hr).
    destruct (fault σ) as [[e|e]|] eqn:Hf;
      [destruct (isinstance_IOError e)..|]; done.
  - unfold bind. by rewrite (get_run _ _ _ _ _ _ Hr).
  - unfold bind.
    pose proof (get_last_directory_state project_root fs self σ) as Hs.
    destruct (get_last_directory _ _ _ _) as [[?|?] σ']; cbn in *; by subst.
Qed.

(** With nothing in the way of a write, a call of the program leaves the
    file holding the mapping in memory if it assigns, and leaves the file
    alone if it does not. *)
Lemma step_files self σ d p a :
  ready self σ d p → fault σ = None → of_the_program a = true →
  files (snd (step project_root self a σ)) !! p
  = if mutates a then Some (Parses (settings_after a d)) else files σ !! p.
Proof.
  intros Hr Hf Ha. destruct a as [|key v|dir|key default|fs|files' fault'];
    cbn [step mutates settings_after]; try done.
  - unfold bind. by rewrite (Settings_again _ _ _ _ _ Hr).
  - rewrite (set_run _ _ _ _ _ _ Hr), Hf. cbn. apply lookup_insert_eq.
  - unfold set_last_directory. rewrite (set_run _ _ _ _ _ _ Hr), Hf. cbn.
    apply lookup_insert_eq.
  - unfold bind. by rewrite (get_run _ _ _ _ _ _ Hr).
  - unfold bind.
    pose proof (get_last_directory_state project_root fs self σ) as Hs.
    destruct (get_last_directory _ _ _ _) as [[?|?] σ']; cbn in *; by subst.
Qed.

Lemma exec_files self acts : ∀ σ d p,
  ready self σ d p → fault σ = None →
  Forall (λ a, of_the_program a = true) acts →
  files σ !! p = Some (Parses d) ∨ Exists (λ a, mutates a = true) acts →
  let σ' := exec project_root self acts σ in
  fault σ' = None
  ∧ files σ' !! p
    = Some (Parses (fold_left (λ d a, settings_after a d) acts d)).
Proof.
  induction acts as [|a acts IH]; intros σ d p Hr Hf Hacts Hsync.
  - cbn. split; [done|]. destruct Hsync as [?|H]; [done|]. by inversion H.
  - apply Forall_cons in Hacts as [Ha Hacts]. cbn [exec fold_left].
    apply (IH _ (settings_after a d) p).
    + by apply step_ready.
    + by rewrite (step_fault _ _ _ _ _ Hr Ha).
    + done.
    + rewrite (step_files _ _ _ _ _ Hr Hf Ha).
      destruct (mutates a) eqn:Hm; [by left|].
      assert (settings_after a d = d) as -> by (by destruct a).
      destruct Hsync as [?|H]; [by left|right].
      apply Exists_cons in H as [H|H]; [congruence|done].
Qed.

(** X1. The mapping in memory follows the assignments alone. After any
    run of calls, and whatever the disk did in between (writes that
    failed, files replaced or removed), [get(key, default)] returns what
    the last assignment to [key] gave, the value held at the start when
    there was none, and [default] when there is neither; a value just
    assigned is the one returned. *)
Theorem memory_follows_the_assignments self σ d p acts key default :
  ready self σ d p →
  let σ' := exec project_root self acts σ in
  let d' := fold_left (λ d a, settings_after a d) acts d in
  ready self σ' d' p
  ∧ get self key default σ'
    = (Normal (match d' !! key with Some v => v | None => default end), σ')
  ∧ (∀ v, get self key default
            (exec project_root self (acts ++ [CallSet key v]) σ)
          = (Normal v, exec project_root self (acts ++ [CallSet key v]) σ)).
Proof.
  intros Hr σ' d'.
  pose proof (exec_ready project_root self acts σ d p Hr) as Hr'.
  split; [done|]. split; [by apply (get_run _ _ _ p)|].
  intros v.
  pose proof (exec_ready project_root self (acts ++ [CallSet key v]) σ d p Hr)
    as Hr''.
  rewrite (get_run _ _ _ p _ _ Hr'').
  rewrite fold_left_app. cbn. by rewrite lookup_insert_eq.
Qed.

(** X2. On a disk that takes every write, and with nobody else touching
    the file, the settings file holds the mapping of the memory after any
    run of calls of the program, as soon as the run has assigned once or
    the two agreed at the start. *)
Theorem file_holds_the_mapping_after_writes self σ d p acts :
  ready self σ d p → fault σ = None →
  Forall (λ a, of_the_program a = true) acts →
  files σ !! p = Some (Parses d) ∨ Exists (λ a, mutates a = true) acts →
  let σ' := exec project_root self acts σ in
  let d' := fold_left (λ d a, settings_after a d) acts d in
  ready self σ' d' p
  ∧ files σ' !! p = Some (Parses d')
  ∧ fault σ' = None.
Proof.
  intros Hr Hf Hacts Hsync σ' d'.
  destruct (exec_files self acts σ d p Hr Hf Hacts Hsync) as [Hf' Hfile].
  split; [by apply exec_ready|]. by split.
Qed.

(** X3. Under the same conditions the settings survive the end of the
    process: in a new process on the disk as it was left, [Settings()]
    returns, holds the mapping the old process held, and every
    [get(key, default)] returns what it returned there. *)
Theorem settings_survive_a_restart self σ d acts :
  ready self σ d path → fault σ = None →
  Forall (λ a, of_the_program a = true) acts →
  files σ !! path = Some (Parses d) ∨ Exists (λ a, mutates a = true) acts →
  let σ' := exec project_root self acts σ in
  ∃ d' σ2,
    ready self σ' d' path
    ∧ Settings.Settings project_root (restart σ') = (Normal 0, σ2)
    ∧ ready 0 σ2 d' path
    ∧ ∀ key default,
        fst (get 0 key default σ2) = fst (get self key default σ').
Proof.
  intros Hr Hf Hacts Hsync σ'.
  destruct (exec_files self acts σ d path Hr Hf Hacts Hsync) as [_ Hfile].
  pose proof (exec_ready project_root self acts σ d path Hr) as Hr'.
  fold σ' in Hfile, Hr'.
  set (d' := fold_left (λ d a, settings_after a d) acts d) in *.
  pose proof (Settings_boot project_root (files σ') (fault σ')) as Hboot.
  cbv zeta in Hboot. rewrite Hfile in Hboot.
  destruct Hboot as (Hret & Hr2 & _).
  exists d', (snd (Settings.Settings project_root (restart σ'))).
  split; [done|]. split.
  - unfold restart. rewrite <- Hret. by destruct (Settings.Settings _ _).
  - split; [exact Hr2|]. intros key default.
    by rewrite (get_run _ _ _ _ _ _ Hr2), (get_run _ _ _ _ _ _ Hr').
Qed.

(** X4. When the settings file cannot be opened for writing, [set]
    returns and the value is in memory, and the file is left as it was:
    a new process loads the old mapping, in which the assignment is
    missing. *)
Theorem unwritable_file_keeps_the_old_settings self σ d d0 e key v :
  ready self σ d path →
  fault σ = Some (OpenFails e) → isinstance_IOError e = true →
  files σ !! path = Some (Parses d0) →
  let σ' := snd (set self key v σ) in
  set self key v σ = (Normal tt, σ')
  ∧ fst (get self key VNone σ') = Normal v
  ∧ files σ' = files σ
  ∧ ∃ σ2,
      Settings.Settings project_root (restart σ') = (Normal 0, σ2)
      ∧ ready 0 σ2 d0 path
      ∧ ∀ default,
          fst (get 0 key default σ2)
          = Normal (match d0 !! key with Some v0 => v0 | None => default end).
Proof.
  intros Hr Hf He Hfile σ'.
  pose proof (set_ready self σ d path key v Hr) as Hr'. fold σ' in Hr'.
  pose proof (set_run self σ d path key v Hr) as Hrun. cbv zeta in Hrun.
  rewrite Hf, He in Hrun.
  assert (files σ' = files σ) as Hfiles by (unfold σ'; by rewrite Hrun).
  assert (fault σ' = fault σ) as Hfault by (unfold σ'; by rewrite Hrun).
  split; [unfold σ'; by rewrite Hrun|].
  split; [by rewrite (get_run _ _ _ _ _ _ Hr'), lookup_insert_eq|].
  split; [done|].
  pose proof (Settings_boot project_root (files σ') (fault σ')) as Hboot.
  cbv zeta in Hboot. rewrite Hfiles, Hfile in Hboot.
  destruct Hboot as (Hret & Hr2 & _).
  exists (snd (Settings.Settings project_root (restart σ'))).
  split.
  - unfold restart. rewrite <- Hret, Hfiles.
    by destruct (Settings.Settings _ _).
  - unfold restart. rewrite Hfiles. split; [done|]. intros default.
    by rewrite (get_run _ _ _ _ _ _ Hr2).
Qed.

(** X5. [get_last_directory()] after [set_last_directory(dir)] returns
    [dir] when [dir] is not empty and is a directory, and the project root
    when it is not, whether the write went through or not; the call
    changes nothing. *)
Theorem remembered_directory_round_trip fs self σ d p dir :
  ready self σ d p →
  let σ' := snd (set_last_directory self dir σ) in
  get_last_directory project_root fs self σ'
  = (Normal (VStr (if negb (String.eqb dir "") && os.isdir fs dir
                   then dir else project_root)), σ').
Proof.
  intros Hr σ'.
  pose proof (set_ready self σ d p "last_directory" (VStr dir) Hr) as Hr'.
  fold (set_last_directory self dir) in Hr'. fold σ' in Hr'.
  unfold get_last_directory, bind.
  rewrite (get_run _ _ _ _ _ _ Hr'), lookup_insert_eq. cbn.
  destruct (negb (String.eqb dir "")); cbn; [|done].
  by destruct (os.isdir fs dir).
Qed.
End SettingsOverTime.


(** ** The navigation button over time *)

(** X6. Over any sequence of clicks and calls of [set_active], the state
    of a button is the one the last [set_active] gave (its state at the
    start when there was none): a click never changes it. The identifier
    and the text stay, and the style sheet is the one of the state, given
    that it was at the start, as it is after [__init__]. *)
Theorem button_state_over_time evs b :
  NavButton.styleSheet b = style_of (NavButton._is_active b) →
  let b' := NavButton.run evs b in
  NavButton.is_active b' = last_active (NavButton._is_active b) evs
  ∧ NavButton.styleSheet b' = style_of (NavButton.is_active b')
  ∧ NavButton.workspace_id b' = NavButton.workspace_id b
  ∧ NavButton.text b' = NavButton.text b.
Proof.
  revert b. induction evs as [|ev evs IH]; intros b Hs; [done|].
  cbv zeta in *. change (NavButton.run (ev :: evs) b)
    with (NavButton.run evs (NavButton.handle ev b)).
  change (last_active (NavButton._is_active b) (ev :: evs))
    with (last_active
            match ev with
            | NavButton.Click => NavButton._is_active b
            | NavButton.SetActive active' => active'
            end evs).
  assert (NavButton.styleSheet (NavButton.handle ev b)
          = style_of (NavButton._is_active (NavButton.handle ev b))
          ∧ NavButton._is_active (NavButton.handle ev b)
            = match ev with
              | NavButton.Click => NavButton._is_active b
              | NavButton.SetActive active' => active'
              end
          ∧ NavButton.workspace_id (NavButton.handle ev b)
            = NavButton.workspace_id b
          ∧ NavButton.text (NavButton.handle ev b) = NavButton.text b)
    as (Hs' & Ha & Hid & Htext).
  { destruct ev as [|active]; cbn.
    - unfold NavButton._on_clicked.
      by destruct (NavButton._is_active b) eqn:Hb; cbn; rewrite ?Hb.
    - by destruct active. }
  rewrite <- Ha, <- Hid, <- Htext. exact (IH _ Hs').
Qed.

(** ** The tab over time *)

Lemma click_checkbox_run i t item :
  file_list t !! i = Some item →
  click_checkbox i t
  = _on_item_changed
      (set_file_list
         (<[i := item_setCheckState
                   (if is_checked item then Unchecked else Checked) item]>) t).
Proof.
  intros Hi. unfold click_checkbox, bind, get_state. rewrite Hi.
  rewrite (setCheckState_run _ _ _ _ Hi).
  rewrite bool_decide_eq_false_2; [done|].
  unfold is_checked.
  by destruct (bool_decide_reflect (checkState item = Checked)) as [->|].
Qed.

Lemma pick_format_run lower fs index t :
  pick_format lower fs index t
  = if bool_decide (format_combo t = index) then (Normal tt, t)
    else _refresh_file_list lower fs (set_format_combo index t).
Proof.
  unfold pick_format, bind, get_state. by destruct (bool_decide _).
Qed.

(** X7. The two loops over the list agree: [_get_selected_count()] is the
    length of [get_selected_files()], and so of the [selected_files] of
    [get_data()]; it is at most the number of items, and it is 0 exactly
    when no path is selected. *)
Theorem count_is_the_number_of_selected_files t :
  _get_selected_count t = length (get_selected_files t)
  ∧ _get_selected_count t = length (selected_files (get_data t))
  ∧ _get_selected_count t ≤ length (file_list t)
  ∧ (_get_selected_count t = 0 ↔ get_selected_files t = []).
Proof.
  assert (_get_selected_count t = length (get_selected_files t)) as H
    by (by rewrite _get_selected_count_eq, get_selected_files_eq, length_map).
  split; [done|]. split; [done|]. split.
  - rewrite _get_selected_count_eq. apply List.filter_length_le.
  - rewrite H. by destruct (get_selected_files t).
Qed.

(** The events of the tab leave the directory alone. *)
Lemma on_event_keeps_directory lower fs ev t :
  _current_directory (snd (on_event lower fs ev t)) = _current_directory t.
Proof.
  destruct ev as [i| | |index]; cbn [on_event].
  - unfold click_checkbox, bind, get_state.
    destruct (file_list t !! i) as [item|] eqn:Hi; [|done].
    destruct (setCheckState_step i (if is_checked item then Unchecked
                                    else Checked) t item Hi)
      as (t' & -> & _ & Hd & _). done.
  - destruct (set_all_and_report Checked t) as (t' & more & Hrun & _ & Hd & _).
    unfold _on_select_all. by rewrite Hrun.
  - destruct (set_all_and_report Unchecked t)
      as (t' & more & Hrun & _ & Hd & _).
    unfold _on_clear_all. by rewrite Hrun.
  - rewrite pick_format_run. destruct (bool_decide _); [done|].
    by destruct (refresh_keeps_the_rest lower fs (set_format_combo index t))
      as (-> & _).
Qed.

Lemma on_event_label lower fs ev t :
  os.isdir fs (_current_directory t) = true →
  (∀ e, os.listdir fs (_current_directory t) = Raise e →
        isinstance_PermissionError e = true) →
  label_in_sync t → label_in_sync (snd (on_event lower fs ev t)).
Proof.
  intros Hdir Hls Hsync. destruct ev as [i| | |index]; cbn [on_event].
  - destruct (file_list t !! i) as [item|] eqn:Hi.
    + by rewrite (click_checkbox_run _ _ _ Hi), _on_item_changed_run.
    + unfold click_checkbox, bind, get_state. by rewrite Hi.
  - destruct (set_all_and_report Checked t)
      as (t' & more & Hrun & _ & _ & _ & _ & Hlab & _).
    unfold _on_select_all. by rewrite Hrun.
  - destruct (set_all_and_report Unchecked t)
      as (t' & more & Hrun & _ & _ & _ & _ & Hlab & _).
    unfold _on_clear_all. by rewrite Hrun.
  - rewrite pick_format_run. destruct (bool_decide _); [done|].
    rewrite _refresh_file_list_run. cbv zeta.
    cbn [_current_directory set_format_combo]. rewrite Hdir.
    destruct (os.listdir fs (_current_directory t)) as [names|e] eqn:Hl.
    + unfold label_in_sync. cbn [snd selected_label set_selected_label].
      erewrite count_unchecked; [done| |reflexivity].
      cbn. apply (Forall_fmap _ _ _). by apply Forall_true.
    + rewrite (Hls e eq_refl). done.
Qed.

(** X8. While the current directory is a directory and listing it
    returns or raises [PermissionError], the label keeps showing the
    number of checked items over any sequence of clicks on check boxes,
    Select All, Clear All and changes of the format. *)
Theorem label_shows_the_count lower fs evs t :
  os.isdir fs (_current_directory t) = true →
  (∀ e, os.listdir fs (_current_directory t) = Raise e →
        isinstance_PermissionError e = true) →
  label_in_sync t →
  label_in_sync (after_events lower fs evs t).
Proof.
  revert t. induction evs as [|ev evs IH]; intros t Hdir Hls Hsync; [done|].
  cbn. apply IH.
  - by rewrite on_event_keeps_directory.
  - by rewrite on_event_keeps_directory.
  - by apply on_event_label.
Qed.

Lemma well_listed_set_all lower state t l :
  state ≠ PartiallyChecked →
  well_listed lower t →
  file_list l = map (item_setCheckState state) (file_list t) →
  well_listed lower l.
Proof.
  intros Hstate [Hsorted Hitems] Hl. unfold well_listed. rewrite Hl. split.
  - rewrite map_map. by cbn.
  - apply (Forall_fmap _ _ _).
    eapply Forall_impl; [exact Hitems|]. by intros item [? _].
Qed.

Lemma on_event_well_listed lower fs ev t :
  well_listed lower t → well_listed lower (snd (on_event lower fs ev t)).
Proof.
  intros Hwl. destruct ev as [i| | |index]; cbn [on_event].
  - destruct (file_list t !! i) as [item|] eqn:Hi.
    + rewrite (click_checkbox_run _ _ _ Hi), _on_item_changed_run.
      destruct Hwl as [Hsorted Hitems].
      pose proof (Forall_lookup_1 _ _ _ _ Hitems Hi) as [Hc _].
      split; cbn.
      * rewrite list_fmap_insert. cbn.
        rewrite list_insert_id; [done|].
        by rewrite list_lookup_fmap, Hi.
      * apply Forall_insert; [done|]. split; [done|]. cbn.
        by destruct (is_checked item).
    + unfold click_checkbox, bind, get_state. by rewrite Hi.
  - destruct (set_all_and_report Checked t) as (t' & more & Hrun & Hl & _).
    unfold _on_select_all. rewrite Hrun.
    by apply (well_listed_set_all lower Checked t).
  - destruct (set_all_and_report Unchecked t) as (t' & more & Hrun & Hl & _).
    unfold _on_clear_all. rewrite Hrun.
    by apply (well_listed_set_all lower Unchecked t).
  - rewrite pick_format_run. destruct (bool_decide _); [done|].
    rewrite _refresh_file_list_run. cbv zeta.
    assert (well_listed lower (set_file_list (λ _, []) (set_format_combo index t)))
      as Hempty by (split; cbn; constructor).
    destruct (os.isdir fs _); [|done].
    destruct (os.listdir fs _) as [names|e].
    + split; cbn.
      * rewrite map_map. cbn. rewrite map_id. apply sort_by_lower_sorted.
      * apply (Forall_fmap _ _ _). by apply Forall_true.
    + by destruct (isinstance_PermissionError e).
Qed.

(** X9. Whatever the disk holds, the list a refresh leaves is sorted by
    lower-case name, every item can be checked and none is partially
    checked; clicks on check boxes, Select All, Clear All and changes of
    the format keep a list so. *)
Theorem list_stays_well_formed lower fs evs t :
  well_listed lower (snd (_refresh_file_list lower fs t))
  ∧ (well_listed lower t → well_listed lower (after_events lower fs evs t)).
Proof.
  split.
  - rewrite _refresh_file_list_run. cbv zeta.
    assert (well_listed lower (set_file_list (λ _, []) t))
      as Hempty by (split; cbn; constructor).
    destruct (os.isdir fs _); [|done].
    destruct (os.listdir fs _) as [names|e].
    + split; cbn.
      * rewrite map_map. cbn. rewrite map_id. apply sort_by_lower_sorted.
      * apply (Forall_fmap _ _ _). by apply Forall_true.
    + by destruct (isinstance_PermissionError e).
  - revert t. induction evs as [|ev evs IH]; intros t Hwl; [done|].
    cbn. apply IH. by apply on_event_well_listed.
Qed.

(** X10. Two clicks on the check box of an item that is checked or
    unchecked return: the first toggles the item, the second restores the
    list, the selection and the label, and the signal was emitted twice,
    with the selection in between and with the selection restored. *)
Theorem two_clicks_restore_the_selection i t item :
  file_list t !! i = Some item →
  checkState item ≠ PartiallyChecked →
  ∃ t1 t2,
    click_checkbox i t = (Normal tt, t1)
    ∧ click_checkbox i t1 = (Normal tt, t2)
    ∧ is_checked <$> file_list t1 !! i = Some (negb (is_checked item))
    ∧ file_list t2 = file_list t
    ∧ get_selected_files t2 = get_selected_files t
    ∧ selected_label t2 = count_label (_get_selected_count t)
    ∧ files_selected t2
      = files_selected t ++ [get_selected_files t1; get_selected_files t].
Proof.
  intros Hi Hpc.
  set (item1 := item_setCheckState
                  (if is_checked item then Unchecked else Checked) item).
  assert (i < length (file_list t)) as Hlt by (by eapply lookup_lt_Some).
  assert (item_setCheckState
            (if is_checked item1 then Unchecked else Checked) item1 = item)
    as Hback.
  { unfold item1. destruct item as [name flag []]; done. }
  pose proof (click_checkbox_run _ _ _ Hi) as Hrun1. fold item1 in Hrun1.
  rewrite _on_item_changed_run in Hrun1.
  set (t1 := emit_files_selected _ _) in Hrun1.
  assert (file_list t1 !! i = Some item1) as Hi1
    by (cbn; by apply list_lookup_insert_eq).
  pose proof (click_checkbox_run _ _ _ Hi1) as Hrun2.
  rewrite _on_item_changed_run, Hback in Hrun2.
  set (t2 := emit_files_selected _ _) in Hrun2.
  exists t1, t2. split; [exact Hrun1|]. split; [exact Hrun2|].
  assert (<[i := item]> (file_list t1) = file_list t) as Hl.
  { cbn. rewrite list_insert_insert_eq. by apply list_insert_id. }
  split; [|split; [exact Hl|]].
  - rewrite Hi1. cbn. f_equal. unfold item1.
    by destruct item as [name flag []].
  - assert (∀ ta tb, file_list ta = file_list tb →
                     _current_directory ta = _current_directory tb →
                     get_selected_files ta = get_selected_files tb
                     ∧ _get_selected_count ta = _get_selected_count tb)
      as Hsame.
    { intros ta tb Hf Hd.
      rewrite !get_selected_files_eq, !_get_selected_count_eq, Hf.
      split; [|done]. apply map_ext. intros x. unfold full_path.
      by rewrite Hd. }
    destruct (Hsame t2 t Hl eq_refl) as [Hs Hc].
    split; [exact Hs|]. split.
    + change (selected_label t2)
        with (count_label
                (_get_selected_count (set_file_list (<[i:=item]>) t1))).
      f_equal. by apply (Hsame _ t).
    + change (files_selected t2)
        with ((files_selected t
                 ++ [get_selected_files (set_file_list (<[i:=item1]>) t)])
                ++ [get_selected_files (set_file_list (<[i:=item]>) t1)]).
      rewrite <- app_assoc. change ([?x] ++ ?l) with (x :: l).
      destruct (Hsame (set_file_list (<[i:=item1]>) t) t1 eq_refl eq_refl)
        as [-> _].
      by destruct (Hsame (set_file_list (<[i:=item]>) t1) t Hl eq_refl)
        as [-> _].
Qed.

(** X11. On a disk that does not change, a second refresh returns what
    the first returned and leaves the tab as the first left it. *)
Theorem refresh_twice_is_refresh_once lower fs t :
  let once := _refresh_file_list lower fs t in
  _refresh_file_list lower fs (snd once) = once.
Proof.
  cbv zeta. rewrite !_refresh_file_list_run. cbv zeta.
  destruct (os.isdir fs (_current_directory t)) eqn:Hdir.
  - destruct (os.listdir fs (_current_directory t)) as [names|e] eqn:Hl.
    + cbn [snd _current_directory set_selected_label set_file_list].
      rewrite Hdir, Hl. done.
    + destruct (isinstance_PermissionError e) eqn:He;
        cbn [snd _current_directory set_selected_label set_file_list];
        by rewrite Hdir, Hl, He.
  - cbn [snd _current_directory set_selected_label set_file_list].
    by rewrite Hdir.
Qed.

(** X12. A change of the format and a directory chosen in the dialog
    empty the selection without emitting [files_selected]: what was
    emitted is what had been emitted before, while [get_data()] reports no
    selected file, the directory in use and the format now shown. *)
Theorem selection_reset_is_not_announced lower fs :
  (∀ t index, format_combo t ≠ index →
     let t' := snd (pick_format lower fs index t) in
     files_selected t' = files_selected t
     ∧ selected_files (get_data t') = []
     ∧ directory (get_data t') = directory (get_data t)
     ∧ format_filter (get_data t') = currentText (set_format_combo index t))
  ∧ (∀ settings dir a σ', dir ≠ "" →
     set_last_directory settings dir (proc a) = (Normal tt, σ') →
     let t' := ui (snd (_on_browse_clicked lower fs settings dir a)) in
     files_selected t' = files_selected (ui a)
     ∧ selected_files (get_data t') = []
     ∧ directory (get_data t') = dir
     ∧ format_filter (get_data t') = format_filter (get_data (ui a))).
Proof.
  split.
  - intros t index Hne t'. unfold t'.
    rewrite pick_format_run, bool_decide_eq_false_2 by done.
    destruct (refresh_keeps_the_rest lower fs (set_format_combo index t))
      as (Hd & _ & Hf & He).
    destruct (refresh_resets_selection lower fs (set_format_combo index t))
      as (_ & Hs & _).
    unfold get_data, currentText. cbn [directory selected_files format_filter].
    by rewrite He, Hs, Hd, Hf.
  - intros settings dir a σ' Hne Hset t'. unfold t'.
    rewrite (_on_browse_clicked_run lower fs settings dir a σ' Hne Hset).
    cbn [snd ui].
    set (t0 := set_directory_input dir (set__current_directory dir (ui a))).
    destruct (refresh_keeps_the_rest lower fs t0) as (Hd & _ & Hf & He).
    destruct (refresh_resets_selection lower fs t0) as (_ & Hs & _).
    unfold get_data, currentText. cbn [directory selected_files format_filter].
    by rewrite He, Hs, Hd, Hf.
Qed.

(** The loop of [_on_select_all] and [_on_clear_all], from index [i] on:
    the slot of [itemChanged] emits once for every item whose state the
    loop changes. *)
Lemma for_range_setCheckState_emits state n : ∀ i t,
  i + n = length (file_list t) →
  length (files_selected
            (snd (for_range_from i n (λ i, setCheckState i state) t)))
  = length (files_selected t) + to_change state (drop i (file_list t)).
Proof.
  induction n as [|n IH]; intros i t Hlen; cbn [for_range_from].
  - rewrite drop_ge by lia. cbn. lia.
  - destruct (lookup_lt_is_Some_2 (file_list t) i) as [item Hi]; [lia|].
    unfold bind. rewrite (setCheckState_run _ _ _ _ Hi).
    rewrite (drop_S _ _ _ Hi). unfold to_change. cbn [List.filter].
    destruct (bool_decide (checkState item = state)); cbn [negb].
    + rewrite IH by lia. done.
    + rewrite _on_item_changed_run. rewrite IH.
      * cbn [file_list emit_files_selected set_selected_label set_file_list
             files_selected].
        rewrite drop_insert_lt by lia. rewrite length_app. unfold to_change. cbn. lia.
      * cbn. rewrite length_insert. lia.
Qed.

Lemma set_all_emits state t :
  length (files_selected
            (snd ((t0 <- get_state ;;
                   for_range (length (file_list t0))
                             (λ i, setCheckState i state) ;;
                   _update_selected_count ;;
                   _emit_selection_changed)%py t)))
  = length (files_selected t) + to_change state (file_list t) + 1.
Proof.
  destruct (for_range_setCheckState state (length (file_list t)) 0 t)
    as (t1 & Hrun & _); [done|].
  pose proof (for_range_setCheckState_emits state (length (file_list t)) 0 t
                eq_refl) as Hemits.
  rewrite Hrun in Hemits. cbn [snd drop] in Hemits.
  unfold bind at 1. unfold get_state at 1.
  unfold bind at 1, for_range. rewrite Hrun.
  cbn. rewrite length_app, Hemits. by rewrite drop_0.
Qed.

(** X13. Select All and Clear All emit [files_selected] once for every
    item whose state they change, and once more at the end: at least once,
    also when no item changes. *)
Theorem select_all_emits_once_per_change_and_once_more t :
  length (files_selected (snd (_on_select_all t)))
  = length (files_selected t) + to_change Checked (file_list t) + 1
  ∧ length (files_selected (snd (_on_clear_all t)))
    = length (files_selected t) + to_change Unchecked (file_list t) + 1.
Proof. split; apply set_all_emits. Qed.

(** ** The tab and the settings store together *)

Lemma get_last_directory_run project_root fs self σ d p :
  ready self σ d p →
  (d !! "last_directory" = None
   ∨ ∃ s, d !! "last_directory" = Some (VStr s)) →
  get_last_directory project_root fs self σ
  = (Normal (VStr (remembered project_root fs d)), σ).
Proof.
  intros Hr Hd. unfold get_last_directory, bind, remembered.
  rewrite (get_run _ _ _ _ _ _ Hr).
  destruct Hd as [->|[s ->]]; [done|]. cbn.
  destruct (negb (String.eqb s "")); cbn; [|done].
  by destruct (os.isdir fs s).
Qed.

Lemma _init_ui_remembered lower fs project_root settings a d p :
  ready settings (proc a) d p →
  (d !! "last_directory" = None
   ∨ ∃ s, d !! "last_directory" = Some (VStr s)) →
  let dir := remembered project_root fs d in
  let refreshed :=
    _refresh_file_list lower fs
      (set_directory_input dir (set__current_directory dir (ui a))) in
  _init_ui lower fs project_root settings a
  = (fst refreshed, {| proc := proc a; ui := snd refreshed |}).
Proof.
  intros Hr Hd dir. apply _init_ui_run.
  by apply (get_last_directory_run _ _ _ _ d p).
Qed.

(** X14. With a store that remembers nothing or a string, [_init_ui]
    opens the tab on the remembered directory when that is not empty and
    is a directory, and on the project root otherwise, and shows it in the
    directory field. It leaves the process as it was (nothing is written),
    the format as set, emits nothing and selects nothing; when the
    directory it opens on is no directory, it returns with an empty
    list. *)
Theorem tab_opens_on_the_remembered_directory
    lower fs project_root settings a d p :
  ready settings (proc a) d p →
  (d !! "last_directory" = None
   ∨ ∃ s, d !! "last_directory" = Some (VStr s)) →
  let dir := remembered project_root fs d in
  let call := _init_ui lower fs project_root settings a in
  let t' := ui (snd call) in
  proc (snd call) = proc a
  ∧ _current_directory t' = dir
  ∧ directory_input t' = dir
  ∧ format_combo t' = format_combo (ui a)
  ∧ files_selected t' = files_selected (ui a)
  ∧ get_selected_files t' = []
  ∧ (os.isdir fs dir = false → fst call = Normal tt ∧ file_list t' = []).
Proof.
  intros Hr Hd dir call t'. unfold t', call.
  rewrite (_init_ui_remembered lower fs project_root settings a d p Hr Hd).
  cbn [fst snd ui proc]. fold dir.
  set (t0 := set_directory_input dir (set__current_directory dir (ui a))).
  destruct (refresh_keeps_the_rest lower fs t0) as (Hcd & Hin & Hf & He).
  destruct (refresh_resets_selection lower fs t0) as (_ & Hs & _).
  do 6 (split; [done|]). intros Hgone.
  rewrite _refresh_file_list_run. cbv zeta.
  change (_current_directory t0) with dir. by rewrite Hgone.
Qed.

(** X15. A directory chosen in the dialog is the one the tab opens on
    after the process was ended and started again, if the disk took the
    write and the directory is still one; otherwise the tab opens on the
    project root. *)
Theorem chosen_directory_is_reopened
    lower fs fs' project_root settings a d dir :
  ready settings (proc a) d (settings_path project_root) →
  fault (proc a) = None →
  dir ≠ "" →
  let a1 := snd (_on_browse_clicked lower fs settings dir a) in
  let first := Settings.Settings project_root (restart (proc a1)) in
  let a2 := snd (_init_ui lower fs' project_root 0
                   {| proc := snd first; ui := created |}) in
  let reopened := if os.isdir fs' dir then dir else project_root in
  _current_directory (ui a1) = dir
  ∧ fst first = Normal 0
  ∧ _current_directory (ui a2) = reopened
  ∧ directory_input (ui a2) = reopened
  ∧ proc a2 = snd first.
Proof.
  intros Hr Hf Hne a1 first a2 reopened.
  set (d' := <["last_directory" := VStr dir]> d).
  pose proof (set_run settings (proc a) d _ "last_directory" (VStr dir) Hr)
    as Hset.
  cbv zeta in Hset. rewrite Hf in Hset.
  fold (set_last_directory settings dir) in Hset.
  pose proof (_on_browse_clicked_run lower fs settings dir a _ Hne Hset)
    as Hbrowse. cbv zeta in Hbrowse.
  assert (proc a1
          = set_files
              (insert (settings_path project_root)
                 (Parses (<["last_directory" := VStr dir]> d)))
              (set_io_log
                 (λ l, l ++ [EvWrite (settings_path project_root)
                               (<["last_directory" := VStr dir]> d)])
                 (set_heap
                    (alter (with_settings
                              (<["last_directory" := VStr dir]> d)) settings)
                    (proc a)))) as Hproc
    by (unfold a1; by rewrite Hbrowse).
  assert (_current_directory (ui a1) = dir) as Hdir1.
  { unfold a1. rewrite Hbrowse. cbn [snd ui].
    by destruct (refresh_keeps_the_rest lower fs
                   (set_directory_input dir
                      (set__current_directory dir (ui a)))) as (-> & _). }
  pose proof (Settings_boot project_root (files (proc a1)) (fault (proc a1)))
    as Hboot.
  cbv zeta in Hboot. fold (restart (proc a1)) in Hboot. fold first in Hboot.
  assert (files (proc a1) !! settings_path project_root
          = Some (Parses (<["last_directory" := VStr dir]> d))) as Hfile
    by (rewrite Hproc; apply lookup_insert_eq).
  rewrite Hfile in Hboot. destruct Hboot as (Hret & Hr2 & _).
  assert (d' !! "last_directory" = None
          ∨ ∃ s, d' !! "last_directory" = Some (VStr s)) as Hd'
    by (right; exists dir; apply lookup_insert_eq).
  pose proof (_init_ui_remembered lower fs' project_root 0
                {| proc := snd first; ui := created |} d' _ Hr2 Hd')
    as Hinit.
  cbv zeta in Hinit. cbn [proc ui] in Hinit.
  assert (remembered project_root fs' d' = reopened) as Hrem.
  { unfold remembered, reopened, d'. rewrite lookup_insert_eq.
    destruct (String.eqb_spec dir "") as [|_]; done. }
  rewrite Hrem in Hinit.
  set (t0 := set_directory_input reopened
               (set__current_directory reopened created)) in Hinit.
  destruct (refresh_keeps_the_rest lower fs' t0) as (Hcd & Hin & _).
  unfold a2. rewrite Hinit. cbn [snd ui proc].
  by rewrite Hcd, Hin.
Qed.

(** ** The format filter *)

(** The names a refresh shows are the listed names that pass the filter,
    when there is a listing at all. *)
Lemma refresh_shows lower fs t name :
  name ∈ map text (file_list (snd (_refresh_file_list lower fs t)))
  ↔ os.isdir fs (_current_directory t) = true
    ∧ ∃ names, os.listdir fs (_current_directory t) = Normal names
               ∧ name ∈ names ∧ passes_filter lower fs t name = true.
Proof.
  rewrite _refresh_file_list_run. cbv zeta.
  destruct (os.isdir fs (_current_directory t)).
  - destruct (os.listdir fs (_current_directory t)) as [names|e].
    + cbn [snd file_list set_selected_label set_file_list].
      rewrite map_map. cbn. rewrite map_id, list_sort_perm.
      rewrite list_elem_of_In, filter_In, <- list_elem_of_In. split.
      * intros [? ?]. split; [done|]. by exists names.
      * intros [_ (names' & [= <-] & ? & ?)]. done.
    + split.
      * destruct (isinstance_PermissionError e); cbn; by intros ?%elem_of_nil.
      * by intros [_ (names & ? & _)].
  - cbn. split; [by intros ?%elem_of_nil|]. by intros [? _].
Qed.

(** X16. With the format "All Supported", the last of [FILE_FORMATS], a
    refresh shows a name exactly when a refresh with one of the formats
    before it shows it, on the same directory and disk. *)
Theorem all_supported_is_the_union_of_the_formats lower fs t name :
  format_combo t = (Z.of_nat (length FILE_FORMATS) - 1)%Z →
  name ∈ map text (file_list (snd (_refresh_file_list lower fs t)))
  ↔ ∃ index, (0 ≤ index < Z.of_nat (length FILE_FORMATS) - 1)%Z
      ∧ name ∈ map text
                 (file_list
                    (snd (_refresh_file_list lower fs
                            (set_format_combo index t)))).
Proof.
  intros Hall.
  assert (∀ ext : string,
            ext ∈ _get_current_extensions t
            ↔ ∃ index, (0 ≤ index < Z.of_nat (length FILE_FORMATS) - 1)%Z
                ∧ ext ∈ _get_current_extensions (set_format_combo index t))
    as Hext.
  { intros ext. unfold _get_current_extensions. rewrite Hall. cbn. split.
    - intros Hin.
      repeat (apply elem_of_cons in Hin as [->|Hin]);
        [exists 0%Z|exists 0%Z|exists 1%Z|exists 2%Z|exists 2%Z|exists 3%Z|
         by apply elem_of_nil in Hin];
        (split; [lia|by apply (bool_decide_eq_true_1 _)]).
    - intros (index & Hrange & Hin).
      assert (index = 0 ∨ index = 1 ∨ index = 2 ∨ index = 3)%Z
        as [-> | [-> | [-> | ->]]] by lia; cbn in Hin;
        repeat (apply elem_of_cons in Hin as [->|Hin]);
        try (by apply elem_of_nil in Hin);
        by apply (bool_decide_eq_true_1 _). }
  assert (∀ index, passes_filter lower fs (set_format_combo index t) name
                   = os.isfile fs (posixpath.join (_current_directory t) name)
                     && bool_decide
                          (lower (posixpath.splitext name).2
                           ∈ _get_current_extensions
                               (set_format_combo index t))) as Hpass by done.
  rewrite refresh_shows. split.
  - intros (Hdir & names & Hls & Hin & Hp).
    unfold passes_filter in Hp. apply andb_true_iff in Hp as [Hfile Hp].
    apply bool_decide_eq_true in Hp. apply Hext in Hp as (index & Hrange & Hp).
    exists index. split; [done|]. apply refresh_shows.
    cbn [_current_directory set_format_combo]. split; [done|].
    exists names. rewrite Hpass, Hfile. cbn.
    by rewrite bool_decide_eq_true_2.
  - intros (index & Hrange & Hshown). apply refresh_shows in Hshown.
    cbn [_current_directory set_format_combo] in Hshown.
    destruct Hshown as (Hdir & names & Hls & Hin & Hp).
    rewrite Hpass in Hp. apply andb_true_iff in Hp as [Hfile Hp].
    apply bool_decide_eq_true in Hp.
    split; [done|]. exists names. unfold passes_filter. rewrite Hfile. cbn.
    rewrite bool_decide_eq_true_2; [done|]. apply Hext. by exists index.
Qed.

(** X17. With a format index outside [FILE_FORMATS] (the combo box has
    no current entry), a refresh shows no file at all, whatever the
    directory holds, and [get_data()] reports the empty format. *)
Theorem no_format_lists_nothing lower fs t :
  ¬ (0 ≤ format_combo t < Z.of_nat (length FILE_FORMATS))%Z →
  file_list (snd (_refresh_file_list lower fs t)) = []
  ∧ format_filter (get_data t) = "".
Proof.
  intros Hout. split.
  - destruct (file_list (snd (_refresh_file_list lower fs t)))
      as [|item l] eqn:Hl; [done|]. exfalso.
    assert (text item
            ∈ map text (file_list (snd (_refresh_file_list lower fs t))))
      as Hin by (rewrite Hl; cbn; left).
    apply refresh_shows in Hin as (_ & names & _ & _ & Hp).
    unfold passes_filter, _get_current_extensions in Hp.
    apply andb_true_iff in Hp as [_ Hp]. apply bool_decide_eq_true in Hp.
    destruct ((0 <=? format_combo t)%Z && _) eqn:Hrange.
    + apply andb_true_iff in Hrange as [?%Z.leb_le ?%Z.ltb_lt]. lia.
    + by apply elem_of_nil in Hp.
  - unfold get_data, currentText. cbn [format_filter].
    destruct (Z.leb_spec 0 (format_combo t)) as [Hge|]; [|done].
    rewrite lookup_ge_None_2; [done|]. cbn in *. lia.
Qed.

(** ** The further properties on the scenario *)

Lemma started_ready :
  ready 0 Demo.started {[ "last_directory" := VStr "/data/plates" ]}
        (settings_path Demo.root).
Proof. split; by vm_compute. Qed.

Lemma writable_ready :
  ready 0 writable {[ "last_directory" := VStr "/data/plates" ]}
        (settings_path Demo.root).
Proof. split; by vm_compute. Qed.

(** X1 on the scenario: a directory is assigned, the write fails, the
    file is then removed from outside, and the value is still returned. *)
Lemma memory_follows_the_assignments_witness :
  ready 0 Demo.started {[ "last_directory" := VStr "/data/plates" ]}
        (settings_path Demo.root)
  ∧ fst (get 0 "last_directory" VNone
           (exec Demo.root 0
              [CallSetLastDirectory "/data/other"; Outside ∅ None;
               CallGet "theme" VNone]
              Demo.started))
    = Normal (VStr "/data/other").
Proof.
  split; [exact started_ready|].
  destruct (memory_follows_the_assignments Demo.root 0 Demo.started _ _
              [CallSetLastDirectory "/data/other"; Outside ∅ None;
               CallGet "theme" VNone]
              "last_directory" VNone started_ready) as (_ & -> & _).
  by vm_compute.
Defined.

(** X2 on the scenario: a theme is assigned on the disk that can be
    written, and the file holds both settings. *)
Lemma file_holds_the_mapping_after_writes_witness :
  ready 0 writable {[ "last_directory" := VStr "/data/plates" ]}
        (settings_path Demo.root)
  ∧ fault writable = None
  ∧ files (exec Demo.root 0
             [CallSet "theme" (VStr "dark"); CallGet "theme" VNone] writable)
      !! settings_path Demo.root
    = Some (Parses {[ "last_directory" := VStr "/data/plates";
                      "theme" := VStr "dark" ]}).
Proof.
  split; [exact writable_ready|]. split; [done|].
  destruct (file_holds_the_mapping_after_writes Demo.root 0 writable _ _
              [CallSet "theme" (VStr "dark"); CallGet "theme" VNone]
              writable_ready eq_refl) as (_ & -> & _).
  - repeat constructor.
  - by left.
  - by vm_compute.
Defined.

(** X3 on the scenario: the theme is there after a restart. *)
Lemma settings_survive_a_restart_witness :
  ready 0 writable {[ "last_directory" := VStr "/data/plates" ]}
        (settings_path Demo.root)
  ∧ fault writable = None
  ∧ ∃ σ2,
      Settings.Settings Demo.root
        (restart (exec Demo.root 0 [CallSet "theme" (VStr "dark")] writable))
      = (Normal 0, σ2)
      ∧ fst (get 0 "theme" VNone σ2) = Normal (VStr "dark").
Proof.
  split; [exact writable_ready|]. split; [done|].
  destruct (settings_survive_a_restart Demo.root 0 writable _
              [CallSet "theme" (VStr "dark")] writable_ready eq_refl)
    as (d' & σ2 & _ & Hrun & _ & Hget).
  - repeat constructor.
  - by left.
  - exists σ2. split; [exact Hrun|]. rewrite Hget. by vm_compute.
Defined.

(** X4 on the scenario: the settings file cannot be opened for writing;
    the new directory is in memory and is gone after a restart. *)
Lemma unwritable_file_keeps_the_old_settings_witness :
  ready 0 Demo.started {[ "last_directory" := VStr "/data/plates" ]}
        (settings_path Demo.root)
  ∧ fault Demo.started
    = Some (OpenFails (Exn PermissionError "[Errno 13] Permission denied"))
  ∧ fst (get 0 "last_directory" VNone
           (snd (set 0 "last_directory" (VStr "/data/other") Demo.started)))
    = Normal (VStr "/data/other")
  ∧ ∃ σ2,
      Settings.Settings Demo.root
        (restart (snd (set 0 "last_directory" (VStr "/data/other")
                         Demo.started)))
      = (Normal 0, σ2)
      ∧ fst (get 0 "last_directory" VNone σ2) = Normal (VStr "/data/plates").
Proof.
  split; [exact started_ready|]. split; [done|].
  destruct (unwritable_file_keeps_the_old_settings Demo.root 0 Demo.started
              _ {[ "last_directory" := VStr "/data/plates" ]}
              (Exn PermissionError "[Errno 13] Permission denied")
              "last_directory" (VStr "/data/other") started_ready)
    as (_ & Hget & _ & σ2 & Hrun & _ & Hget2); [done..|].
  split; [exact Hget|]. exists σ2. split; [exact Hrun|].
  by rewrite Hget2.
Defined.

(** X5 on the scenario: a directory that is there, and one that is not. *)
Lemma remembered_directory_round_trip_witness :
  ready 0 Demo.started {[ "last_directory" := VStr "/data/plates" ]}
        (settings_path Demo.root)
  ∧ fst (get_last_directory Demo.root Demo.fs 0
           (snd (set_last_directory 0 "/data/plates/raw" Demo.started)))
    = Normal (VStr "/data/plates/raw")
  ∧ fst (get_last_directory Demo.root Demo.fs 0
           (snd (set_last_directory 0 "/data/gone" Demo.started)))
    = Normal (VStr Demo.root).
Proof.
  split; [exact started_ready|]. split.
  - by rewrite (remembered_directory_round_trip Demo.root Demo.fs 0
                  Demo.started _ _ "/data/plates/raw" started_ready).
  - by rewrite (remembered_directory_round_trip Demo.root Demo.fs 0
                  Demo.started _ _ "/data/gone" started_ready).
Defined.

(** X6 on the scenario: the button of the analysis workspace. *)
Lemma button_state_over_time_witness :
  NavButton.styleSheet Demo.analysis_button
  = style_of (NavButton._is_active Demo.analysis_button)
  ∧ NavButton.is_active
      (NavButton.run
         [NavButton.Click; NavButton.SetActive true; NavButton.Click]
         Demo.analysis_button)
    = true
  ∧ NavButton.styleSheet
      (NavButton.run
         [NavButton.Click; NavButton.SetActive true; NavButton.Click]
         Demo.analysis_button)
    = style_of true.
Proof.
  split; [done|].
  destruct (button_state_over_time
              [NavButton.Click; NavButton.SetActive true; NavButton.Click]
              Demo.analysis_button eq_refl) as (Ha & Hs & _).
  split; [by rewrite Ha|]. by rewrite Hs, Ha.
Defined.

(** X8 on the scenario: the directory may not be listed any more. *)
Lemma label_shows_the_count_witness :
  os.isdir Demo.fs_locked (_current_directory Demo.two_checked) = true
  ∧ os.listdir Demo.fs_locked (_current_directory Demo.two_checked)
    = Raise (Exn PermissionError "[Errno 13] Permission denied")
  ∧ label_in_sync Demo.two_checked
  ∧ label_in_sync
      (after_events ascii_lower Demo.fs_locked
         [ClickBox 1; SelectAll; PickFormat 0; ClearAll] Demo.two_checked).
Proof.
  split; [by vm_compute|]. split; [by vm_compute|].
  assert (label_in_sync Demo.two_checked) as Hsync by (by vm_compute).
  split; [exact Hsync|].
  apply (label_shows_the_count ascii_lower Demo.fs_locked); [by vm_compute| |
    exact Hsync].
  intros e [= <-]. by vm_compute.
Defined.

(** X9 on the scenario. *)
Lemma list_stays_well_formed_witness :
  well_listed ascii_lower Demo.two_checked
  ∧ well_listed ascii_lower
      (after_events ascii_lower Demo.fs
         [ClickBox 1; SelectAll; PickFormat 0; ClearAll] Demo.two_checked).
Proof.
  assert (well_listed ascii_lower Demo.two_checked) as Hwl.
  { split.
    - repeat (constructor; [|repeat (constructor; [by vm_compute|]);
                              constructor]).
      constructor.
    - repeat (constructor; [split; by vm_compute|]). constructor. }
  split; [exact Hwl|].
  by apply (proj2 (list_stays_well_formed ascii_lower Demo.fs
                     [ClickBox 1; SelectAll; PickFormat 0; ClearAll]
                     Demo.two_checked)).
Defined.

(** X10 on the scenario: two clicks on the second check box. *)
Lemma two_clicks_restore_the_selection_witness :
  file_list Demo.two_checked !! 1 = Some (new_item "b.TIF")
  ∧ ∃ t1 t2,
      click_checkbox 1 Demo.two_checked = (Normal tt, t1)
      ∧ click_checkbox 1 t1 = (Normal tt, t2)
      ∧ file_list t2 = file_list Demo.two_checked
      ∧ get_selected_files t2 = get_selected_files Demo.two_checked.
Proof.
  split; [by vm_compute|].
  destruct (two_clicks_restore_the_selection 1 Demo.two_checked
              (new_item "b.TIF"))
    as (t1 & t2 & Hrun1 & Hrun2 & _ & Hl & Hs & _); [by vm_compute|done|].
  by exists t1, t2.
Defined.

(** X12 on the scenario: two files are checked and the user picks the
    first format. *)
Lemma selection_reset_is_not_announced_witness :
  selected_files (get_data Demo.two_checked)
  = ["/data/plates/a.png"; "/data/plates/B.tif"]
  ∧ last (files_selected Demo.two_checked)
    = Some ["/data/plates/a.png"; "/data/plates/B.tif"]
  ∧ selected_files
      (get_data (snd (pick_format ascii_lower Demo.fs 0 Demo.two_checked)))
    = []
  ∧ files_selected (snd (pick_format ascii_lower Demo.fs 0 Demo.two_checked))
    = files_selected Demo.two_checked.
Proof.
  split; [by vm_compute|]. split; [by vm_compute|].
  destruct (proj1 (selection_reset_is_not_announced ascii_lower Demo.fs)
              Demo.two_checked 0%Z) as (He & Hs & _); [by vm_compute|].
  by split.
Defined.

(** X14 on the scenario: the remembered directory was removed, and the
    tab opens on the project root. *)
Lemma tab_opens_on_the_remembered_directory_witness :
  ready 0 Demo.started {[ "last_directory" := VStr "/data/plates" ]}
        (settings_path Demo.root)
  ∧ fst (_init_ui ascii_lower Demo.fs_removed Demo.root 0
           {| proc := Demo.started; ui := created |})
    = Normal tt
  ∧ _current_directory
      (ui (snd (_init_ui ascii_lower Demo.fs_removed Demo.root 0
                  {| proc := Demo.started; ui := created |})))
    = Demo.root
  ∧ file_list
      (ui (snd (_init_ui ascii_lower Demo.fs_removed Demo.root 0
                  {| proc := Demo.started; ui := created |})))
    = [].
Proof.
  split; [exact started_ready|].
  destruct (tab_opens_on_the_remembered_directory ascii_lower Demo.fs_removed
              Demo.root 0 {| proc := Demo.started; ui := created |} _ _
              started_ready)
    as (_ & Hd & _ & _ & _ & _ & Hgone).
  { right. by exists "/data/plates". }
  assert (os.isdir Demo.fs_removed
            (remembered Demo.root Demo.fs_removed
               {[ "last_directory" := VStr "/data/plates" ]}) = false)
    as Hfalse by (by vm_compute).
  destruct (Hgone Hfalse) as [Hret Hl].
  split; [exact Hret|]. split; [|exact Hl]. rewrite Hd. by vm_compute.
Defined.

(** X15 on the scenario: the user chooses [/data/plates/raw], and the
    next start opens on it. *)
Lemma chosen_directory_is_reopened_witness :
  ready 0 (proc fresh) {[ "last_directory" := VStr "/data/plates" ]}
        (settings_path Demo.root)
  ∧ fault (proc fresh) = None
  ∧ _current_directory
      (ui (snd (_init_ui ascii_lower Demo.fs Demo.root 0
                  {| proc :=
                       snd (Settings.Settings Demo.root
                              (restart
                                 (proc (snd (_on_browse_clicked ascii_lower
                                               Demo.fs 0 "/data/plates/raw"
                                               fresh)))));
                     ui := created |})))
    = "/data/plates/raw".
Proof.
  split; [exact writable_ready|]. split; [done|].
  destruct (chosen_directory_is_reopened ascii_lower Demo.fs Demo.fs Demo.root
              0 fresh _ "/data/plates/raw" writable_ready eq_refl)
    as (_ & _ & Hd & _); [done|].
  by rewrite Hd.
Defined.

(** X16 on the scenario: [a.png] is shown under "All Supported", and so
    under one of the formats before it. *)
Lemma all_supported_is_the_union_of_the_formats_witness :
  format_combo Demo.listed = 4%Z
  ∧ ∃ index, (0 ≤ index < 4)%Z
      ∧ "a.png" ∈ map text
                    (file_list
                       (snd (_refresh_file_list ascii_lower Demo.fs
                               (set_format_combo index Demo.listed)))).
Proof.
  split; [done|].
  apply (all_supported_is_the_union_of_the_formats ascii_lower Demo.fs
           Demo.listed "a.png" eq_refl).
  by apply (bool_decide_eq_true_1 _).
Defined.

(** X17 on the scenario: the combo box has no current entry. *)
Lemma no_format_lists_nothing_witness :
  format_combo (set_format_combo (-1) Demo.listed) = (-1)%Z
  ∧ file_list (snd (_refresh_file_list ascii_lower Demo.fs
                      (set_format_combo (-1) Demo.listed))) = []
  ∧ format_filter (get_data (set_format_combo (-1) Demo.listed)) = "".
Proof.
  split; [done|].
  apply (no_format_lists_nothing ascii_lower Demo.fs
           (set_format_combo (-1) Demo.listed)).
  cbn. lia.
Defined.

(** X13 on the scenario: two of three files are checked; Select All
    changes one item and emits twice, Clear All then changes three and
    emits four times. *)
Example select_all_emissions_on_the_scenario :
  length (files_selected Demo.two_checked) = 2
  ∧ length (files_selected (snd (_on_select_all Demo.two_checked))) = 4
  ∧ length (files_selected
              (snd ((_on_select_all ;; _on_clear_all)%py Demo.two_checked)))
    = 8.
Proof. by vm_compute. Qed.
